(** * LiteX Microsemi back end: Libero SoC toolchain and FlashPro Express programmer

    A shallow embedding of [litex/build/microsemi/libero_soc.py],
    [platform.py] and [programmer.py].  Python [str] values are byte strings
    of ASCII characters; a Python [set] is a [gset], the file system is a
    [gmap] from path to contents, and a function that can raise returns a
    [result] next to the world it leaves behind. *)

From Stdlib Require Import Ascii NArith ZArith.
From stdpp Require Import base option list gmap sets strings pretty sorting.

(** ** Python string operations used by the back end *)

Module Str.

Definition lower_ascii (c : ascii) : ascii :=
  let n := N_of_ascii c in
  if ((65 <=? n) && (n <=? 90))%N then ascii_of_N (n + 32) else c.

Definition upper_ascii (c : ascii) : ascii :=
  let n := N_of_ascii c in
  if ((97 <=? n) && (n <=? 122))%N then ascii_of_N (n - 32) else c.

(** [s.lower()] and [s.upper()] on ASCII text. *)
Fixpoint lower (s : string) : string :=
  match s with
  | EmptyString => EmptyString
  | String c s' => String (lower_ascii c) (lower s')
  end.

Fixpoint upper (s : string) : string :=
  match s with
  | EmptyString => EmptyString
  | String c s' => String (upper_ascii c) (upper s')
  end.

(** [s.startswith(p)] *)
Fixpoint startswith (s p : string) : bool :=
  match p, s with
  | EmptyString, _ => true
  | String _ _, EmptyString => false
  | String a p', String b s' => if decide (a = b) then startswith s' p' else false
  end.

(** [s.endswith(c)] for a one-character suffix. *)
Fixpoint endswith_char (s : string) (c : ascii) : bool :=
  match s with
  | EmptyString => false
  | String a EmptyString => bool_decide (a = c)
  | String _ s' => endswith_char s' c
  end.

(** [s.split(sep)] for a one-character separator: never returns the empty
    list, and no field contains the separator. *)
Fixpoint split (sep : ascii) (s : string) : list string :=
  match s with
  | EmptyString => [EmptyString]
  | String c s' =>
      if decide (c = sep) then EmptyString :: split sep s'
      else match split sep s' with
           | w :: ws => String c w :: ws
           | [] => [String c EmptyString]
           end
  end.

(** [sep.join(l)] *)
Fixpoint join (sep : string) (l : list string) : string :=
  match l with
  | [] => ""
  | [x] => x
  | x :: l' => x +:+ sep +:+ join sep l'
  end.

(** [str(i)] for a non-negative index. *)
Definition of_nat (i : nat) : string := pretty i.

End Str.

(** ** Exceptions and the effect monad *)

Inductive exn : Type :=
| ValueError (msg : string)
| IndexError
| IOError (msg : string)
| OSError (msg : string)
| NotADirectoryError (msg : string)
| FileExistsError (msg : string)
| CalledProcessError (returncode : Z).

Inductive result (A : Type) : Type :=
| Ok (a : A)
| Raise (e : exn).
Arguments Ok {A} a.
Arguments Raise {A} e.

(** What a run can observe of the machine: regular files with their contents,
    directories, and the commands handed to [subprocess]. *)
Record World : Type := mkWorld {
  files : gmap string string;
  dirs : gset string;
  launched : list (list string)
}.

Definition M (A : Type) : Type := World → result A * World.

Global Instance M_ret : MRet M := λ A a w, (Ok a, w).
Global Instance M_bind : MBind M := λ A B k m w,
  match m w with
  | (Ok a, w') => k a w'
  | (Raise e, w') => (Raise e, w')
  end.

Definition raise {A} (e : exn) : M A := λ w, (Raise e, w).

(** [tools.write_to_file(filename, contents)] *)
Definition write_to_file (filename contents : string) : M unit :=
  λ w, (Ok tt, mkWorld (<[filename := contents]> (files w)) (dirs w) (launched w)).


Definition nl : string := String (ascii_of_nat 10) "".

(** ** Data model *)

(** Constraint objects of [litex.build.generic_platform] as the formatter
    meets them in a signal's attribute list.  The formatter tells [Pins],
    [IOStandard] and [Misc] apart with [isinstance]; the remaining classes
    fall through its [if]/[elif] chain. *)
Inductive Constraint : Type :=
| Pins (identifiers : list string)
| IOStandard (name : string)
| Misc (misc : string)
| Drive (strength : string)
| Inverted
| PlatformInfo (info : string).

(** A signal is known by its [duid], the creation sequence number that also
    serves as its hash and its identity in sets and dictionaries. *)
Abbreviation Signal := N (only parsing).
Definition duid (s : Signal) : N := s.

(** The two module-level tables of [common.py].  They are distinct objects
    with the same entries, so a table is named rather than listed. *)
Inductive overrides_table : Type :=
| microsemi_mpf_special_overrides
| microsemi_m2s_special_overrides.

Inductive Special : Type :=
| AsyncResetSynchronizer | Tristate | SDROutput | SDRInput | SDRTristate.

Inductive Lowering : Type :=
| MicrosemiAsyncResetSynchronizer | MicrosemiSDRTristate
| MicrosemiSDROutput | MicrosemiSDRInput.

Definition table_entries (t : overrides_table) : list (Special * Lowering) :=
  match t with
  | microsemi_mpf_special_overrides =>
      [ (AsyncResetSynchronizer, MicrosemiAsyncResetSynchronizer);
        (Tristate, MicrosemiSDRTristate);
        (SDROutput, MicrosemiSDROutput);
        (SDRInput, MicrosemiSDRInput);
        (SDRTristate, MicrosemiSDRTristate) ]
  | microsemi_m2s_special_overrides =>
      [ (AsyncResetSynchronizer, MicrosemiAsyncResetSynchronizer);
        (Tristate, MicrosemiSDRTristate);
        (SDROutput, MicrosemiSDROutput);
        (SDRInput, MicrosemiSDRInput);
        (SDRTristate, MicrosemiSDRTristate) ]
  end.

(** [MicrosemiPlatform]: the fields the back end reads or writes. *)
Record Platform : Type := mkPlatform {
  device : string;
  sources : list (string * string * string);
  placement_constraints : list (string * string * string)
}.

(** [MicrosemiPlatform.add_placement_constraint] *)
Definition add_placement_constraint (p : Platform) (instance x y : string) : Platform :=
  mkPlatform (device p) (sources p) (placement_constraints p ++ [(instance, x, y)]).

Definition SignalConstraint : Type := string * list string * list Constraint * string.

Section Toolchain.

(** Collaborators that live outside this back end: the clock period type
    with its [str()], the name space [self._vns.get_name], [str()] of a
    signal, the identifiers the constructor call [Pins(pin)] stores, and
    [sys.platform]. *)
Context {Period : Type}.
Variable str_period : Period → string.
Variable get_name : Signal → string.
Variable str_signal : Signal → string.
Variable Pins_new : string → list string.
Variable sys_platform : string.

(** [MicrosemiLiberoSoCToolchain] with the attributes inherited from
    [GenericToolchain] that its methods use. *)
Record Toolchain : Type := mkToolchain {
  special_overrides : option overrides_table;
  additional_io_constraints : list string;
  additional_fp_constraints : list string;
  additional_timing_constraints : list string;
  clocks : gmap Signal (Period * option string);
  false_paths : gset (Signal * Signal);
  named_sc : list SignalConstraint;
  _build_name : string;
  platform : Platform
}.

Definition set_special_overrides (t : overrides_table) (tc : Toolchain) : Toolchain :=
  mkToolchain (Some t) (additional_io_constraints tc) (additional_fp_constraints tc)
    (additional_timing_constraints tc) (clocks tc) (false_paths tc) (named_sc tc)
    (_build_name tc) (platform tc).

Definition set_false_paths (fp : gset (Signal * Signal)) (tc : Toolchain) : Toolchain :=
  mkToolchain (special_overrides tc) (additional_io_constraints tc)
    (additional_fp_constraints tc) (additional_timing_constraints tc) (clocks tc)
    fp (named_sc tc) (_build_name tc) (platform tc).

Definition set_platform (p : Platform) (tc : Toolchain) : Toolchain :=
  mkToolchain (special_overrides tc) (additional_io_constraints tc)
    (additional_fp_constraints tc) (additional_timing_constraints tc) (clocks tc)
    (false_paths tc) (named_sc tc) (_build_name tc) p.

Definition tcl_name (name : string) : string := "{" +:+ name +:+ "}".

(** *** IO constraints *)

(** The body of [for c in ([Pins(pin)] + others)] in [_format_io_pdc_mpf],
    with [r] the line built so far. *)
Fixpoint format_attrs_mpf (r : string) (cs : list Constraint) : result string :=
  match cs with
  | [] => Ok r
  | Pins ids :: cs' =>
      match ids with
      | id0 :: _ => format_attrs_mpf (r +:+ "-pin_name " +:+ id0 +:+ " ") cs'
      | [] => Raise IndexError
      end
  | IOStandard name :: cs' => format_attrs_mpf (r +:+ "-io_std " +:+ name +:+ " ") cs'
  | Misc misc :: cs' => format_attrs_mpf (r +:+ "-RES_PULL " +:+ misc +:+ " ") cs'
  | _ :: cs' => format_attrs_mpf r cs'
  end.

Definition _format_io_pdc_mpf (signame pin : string) (others : list Constraint)
  : result string :=
  match format_attrs_mpf ("set_io -port_name " +:+ tcl_name signame +:+ " ")
          (Pins (Pins_new pin) :: others) with
  | Ok r => Ok (r +:+ "-fixed true" +:+ nl)
  | Raise e => Raise e
  end.

Fixpoint format_attrs_m2s (r : string) (cs : list Constraint) : result string :=
  match cs with
  | [] => Ok r
  | Pins ids :: cs' =>
      match ids with
      | id0 :: _ => format_attrs_m2s (r +:+ "-pinname " +:+ id0 +:+ " ") cs'
      | [] => Raise IndexError
      end
  | IOStandard name :: cs' => format_attrs_m2s (r +:+ "-iostd " +:+ name +:+ " ") cs'
  | Misc misc :: cs' => format_attrs_m2s (r +:+ "-RES_PULL " +:+ misc +:+ " ") cs'
  | _ :: cs' => format_attrs_m2s r cs'
  end.

Definition _format_io_pdc_m2s (signame pin : string) (others : list Constraint)
  : result string :=
  match format_attrs_m2s ("set_io " +:+ tcl_name signame +:+ " ")
          (Pins (Pins_new pin) :: others) with
  | Ok r => Ok (r +:+ "-fixed true" +:+ nl)
  | Raise e => Raise e
  end.

(** One formatted line, by the family test the dispatcher repeats at every
    call site. *)
Definition format_io_pdc (dev signame pin : string) (others : list Constraint)
  : result string :=
  if Str.startswith dev "mpf" then _format_io_pdc_mpf signame pin others
  else _format_io_pdc_m2s signame pin others.

(** [for i, p in enumerate(pins)], from index [i] on, appending to [pdc]. *)
Fixpoint io_vector_loop (dev sig : string) (others : list Constraint)
    (i : nat) (pins : list string) (pdc : string) : result string :=
  match pins with
  | [] => Ok pdc
  | p :: pins' =>
      match format_io_pdc dev (sig +:+ "[" +:+ Str.of_nat i +:+ "]") p others with
      | Ok line => io_vector_loop dev sig others (S i) pins' (pdc +:+ line)
      | Raise e => Raise e
      end
  end.

(** [for sig, pins, others, resname in self.named_sc] *)
Fixpoint io_entries_loop (dev : string) (scs : list SignalConstraint) (pdc : string)
  : result string :=
  match scs with
  | [] => Ok pdc
  | (sig, pins, others, resname) :: scs' =>
      let r :=
        if decide (1 < length pins) then io_vector_loop dev sig others 0 pins pdc
        else match pins with
             | p0 :: _ =>
                 match format_io_pdc dev sig p0 others with
                 | Ok line => Ok (pdc +:+ line)
                 | Raise e => Raise e
                 end
             | [] => Raise IndexError
             end in
      match r with
      | Ok pdc' => io_entries_loop dev scs' pdc'
      | Raise e => Raise e
      end
  end.

Definition build_io_constraints (tc : Toolchain) : M (string * string) :=
  let dev := Str.lower (device (platform tc)) in
  match io_entries_loop dev (named_sc tc) "" with
  | Raise e => raise e
  | Ok pdc =>
      let pdc := pdc +:+ Str.join nl (additional_io_constraints tc) in
      write_to_file (_build_name tc +:+ "_io.pdc") pdc;;
      mret (_build_name tc +:+ "_io.pdc", "PDC")
  end.

(** *** Floorplan constraints *)

Definition build_placement_constraints (tc : Toolchain) : M (string * string) :=
  let pdc := Str.join nl (additional_fp_constraints tc) in
  write_to_file (_build_name tc +:+ "_fp.pdc") pdc;;
  mret (_build_name tc +:+ "_fp.pdc", "PDC").

(** *** Project scripts *)

(** [device_parts = self.platform.device.split("-")] and the unpacking that
    follows it, the same in both project builders. *)
Definition device_fields (dev : string) : result (string * string * string) :=
  match Str.split "-" dev with
  | [die; package; speed] => Ok (die, package, speed)
  | [die; package] => Ok (die, package, "STD")
  | _ => Raise (ValueError ("Unexpected device string format: " +:+ dev))
  end.

(** The speed grade as it is written after [-speed]. *)
Definition formatted_speed (speed : string) : string :=
  if decide (Str.upper speed = "STD") then speed
  else if negb (Str.startswith speed "-") then "-" +:+ speed
  else speed.

(** The three [organize_tool_files] statements and the five [run_tool]
    statements, shared word for word by the two builders. *)
Definition organize_and_run (name : string) : list string :=
  [ Str.join " " [ "organize_tool_files"; "-tool {SYNTHESIZE}";
      "-file impl/constraint/" +:+ name +:+ ".sdc";
      "-module " +:+ name; "-input_type {constraint}" ];
    Str.join " " [ "organize_tool_files"; "-tool {PLACEROUTE}";
      "-file impl/constraint/io/" +:+ name +:+ "_io.pdc";
      "-file impl/constraint/fp/" +:+ name +:+ "_fp.pdc";
      "-file impl/constraint/" +:+ name +:+ ".sdc";
      "-module " +:+ name; "-input_type {constraint}" ];
    Str.join " " [ "organize_tool_files"; "-tool {VERIFYTIMING}";
      "-file impl/constraint/" +:+ name +:+ ".sdc";
      "-module " +:+ name; "-input_type {constraint}" ];
    "run_tool -name {CONSTRAINT_MANAGEMENT}";
    "run_tool -name {SYNTHESIZE}";
    "run_tool -name {PLACEROUTE}";
    "run_tool -name {GENERATEPROGRAMMINGDATA}";
    "run_tool -name {GENERATEPROGRAMMINGFILE}" ].

Definition import_sources (srcs : list (string * string * string)) : list string :=
  map (λ '(filename, language, library), "import_files -hdl_source " +:+ tcl_name filename) srcs.

Definition import_constraints (name : string) : list string :=
  [ "build_design_hierarchy";
    "set_root -module " +:+ tcl_name (name +:+ "::work");
    "import_files -io_pdc " +:+ tcl_name (name +:+ "_io.pdc");
    "import_files -fp_pdc " +:+ tcl_name (name +:+ "_fp.pdc");
    "import_files -convert_EDN_to_HDL 0 -sdc " +:+ tcl_name (name +:+ ".sdc") ].

(** The statements of the PolarFire script, once the device string has
    been taken apart and the speed grade formatted. *)
Definition tcl_mpf (name die package fspeed : string)
    (srcs : list (string * string * string)) : list string :=
  [ Str.join " " [
      "new_project";
      "-location {./impl}";
      "-name " +:+ tcl_name name;
      "-project_description {}";
      "-block_mode 0";
      "-standalone_peripheral_initialization 0";
      "-instantiate_in_smartdesign 1";
      "-ondemand_build_dh 0";
      "-use_enhanced_constraint_flow 1";
      "-hdl {VERILOG}";
      "-family {PolarFire}";
      "-die " +:+ tcl_name die;
      "-package " +:+ tcl_name package;
      "-speed " +:+ tcl_name fspeed;
      "-die_voltage {1.0}";
      "-part_range {IND}";
      "-adv_options {VCCI_1.2_VOLTR:IND}";
      "-adv_options {VCCI_1.5_VOLTR:IND}";
      "-adv_options {VCCI_1.8_VOLTR:IND}";
      "-adv_options {VCCI_2.5_VOLTR:IND}";
      "-adv_options {VCCI_3.3_VOLTR:IND}" ] ]
  ++ import_sources srcs
  ++ import_constraints name
  ++ organize_and_run name
  ++ [ nl +:+ "        export_prog_job \" +:+ nl
       +:+ "            -job_file_name {" +:+ name +:+ "} \" +:+ nl
       +:+ "            -export_dir {./impl/designer/" +:+ name +:+ "/export} \" +:+ nl
       +:+ "            -bitstream_file_type {TRUSTED_FACILITY} \" +:+ nl
       +:+ "            -bitstream_file_components {FABRIC SNVM} \" +:+ nl
       +:+ "            -program_design 0 \" +:+ nl
       +:+ "            -design_bitstream_format {PPD}" +:+ nl
       +:+ "        " ].

Definition build_project_mpf (tc : Toolchain) : M string :=
  match device_fields (device (platform tc)) with
  | Raise e => raise e
  | Ok (die, package, speed) =>
      let tcl := tcl_mpf (_build_name tc) die package (formatted_speed speed)
                   (sources (platform tc)) in
      write_to_file (_build_name tc +:+ ".tcl") (Str.join nl tcl);;
      mret (_build_name tc +:+ ".tcl")
  end.

Definition tcl_m2s (family_name name die package fspeed : string)
    (srcs : list (string * string * string)) : list string :=
  [ Str.join " " [
      "new_project";
      "-location {./impl}";
      "-name " +:+ tcl_name name;
      "-project_description {}";
      "-block_mode 0";
      "-standalone_peripheral_initialization 0";
      "-instantiate_in_smartdesign 1";
      "-ondemand_build_dh 0";
      "-use_enhanced_constraint_flow 1";
      "-hdl {VERILOG}";
      "-family {" +:+ family_name +:+ "}";
      "-die " +:+ tcl_name die;
      "-package " +:+ tcl_name package;
      "-speed " +:+ tcl_name fspeed;
      "-die_voltage {1.2}";
      "-part_range {IND}";
      "-adv_options {IO_DEFT_STD:LVCMOS 3.3V}";
      "-adv_options {RESTRICTPROBEPINS:1}";
      "-adv_options {PLL_SUPPLY:PLL_SUPPLY_33}" ] ]
  ++ import_sources srcs
  ++ import_constraints name
  ++ organize_and_run name
  ++ [ Str.join " " [
      "export_prog_job";
      "-job_file_name {" +:+ name +:+ "}";
      "-export_dir {./impl/designer/" +:+ name +:+ "/export}";
      "-bitstream_file_type {TRUSTED_FACILITY}";
      "-bitstream_file_components {FABRIC}";
      "-sanitize_envm  0";
      "-design_bitstream_format {PPD}" ] ].

Definition build_project_m2s (tc : Toolchain) : M string :=
  let dev := Str.lower (device (platform tc)) in
  let family_name := if Str.startswith dev "m2s" then "SmartFusion2" else "IGLOO2" in
  match device_fields (device (platform tc)) with
  | Raise e => raise e
  | Ok (die, package, speed) =>
      let tcl := tcl_m2s family_name (_build_name tc) die package
                   (formatted_speed speed) (sources (platform tc)) in
      write_to_file (_build_name tc +:+ ".tcl") (Str.join nl tcl);;
      mret (_build_name tc +:+ ".tcl")
  end.

(** [build_project]: the project builder is chosen by the lowercased
    device name. *)
Definition build_project (tc : Toolchain) : M string :=
  let dev := Str.lower (device (platform tc)) in
  if Str.startswith dev "mpf" then build_project_mpf tc
  else if Str.startswith dev "m2s" || Str.startswith dev "m2gl" then build_project_m2s tc
  else raise (ValueError ("Unsupported device family for device: " +:+ device (platform tc))).

(** *** Timing constraints *)

(** Sort keys of [build_timing_constraints]: [x[0].duid] for the clocks,
    [(x[0].duid, x[1].duid)] for the false paths. *)
Definition clock_key_le (x y : Signal * (Period * option string)) : Prop :=
  (duid x.1 ≤ duid y.1)%N.
Definition false_path_key_le (x y : Signal * Signal) : Prop :=
  (duid x.1 < duid y.1)%N ∨ (duid x.1 = duid y.1 ∧ (duid x.2 ≤ duid y.2)%N).

Global Instance clock_key_le_dec : RelDecision clock_key_le.
Proof. intros x y. unfold clock_key_le. apply _. Defined.
Global Instance false_path_key_le_dec : RelDecision false_path_key_le.
Proof. intros x y. unfold false_path_key_le. apply _. Defined.

Definition create_clock (item : Signal * (Period * option string)) : string :=
  let '(clk, (period, name)) := item in
  let clk_sig := get_name clk in
  let name := match name with None => clk_sig | Some n => n end in
  "create_clock -name " +:+ name +:+ " -period " +:+ str_period period
    +:+ " [get_nets " +:+ clk_sig +:+ "]".

Definition set_clock_groups (pair : Signal * Signal) : string :=
  let '(from_, to) := pair in
  "set_clock_groups -group [get_clocks -include_generated_clocks -of [get_nets "
    +:+ str_signal from_
    +:+ "]] -group [get_clocks -include_generated_clocks -of [get_nets "
    +:+ str_signal to +:+ "]] -asynchronous".

Definition build_timing_constraints (tc : Toolchain) : M (string * string) :=
  let sdc :=
    map create_clock (merge_sort clock_key_le (map_to_list (clocks tc)))
    ++ map set_clock_groups (merge_sort false_path_key_le (elements (false_paths tc)))
    ++ additional_timing_constraints tc in
  write_to_file (_build_name tc +:+ ".sdc") (Str.join nl sdc);;
  mret (_build_name tc +:+ ".sdc", "SDC").

(** *** Launcher script *)

Definition build_script (tc : Toolchain) : M string :=
  let '(script_ext, script_contents) :=
    if decide (sys_platform = "win32" ∨ sys_platform = "cygwin")
    then (".bat", "@echo off" +:+ nl +:+ "REM Autogenerated by LiteX" +:+ nl +:+ nl)
    else (".sh", "# Autogenerated by LiteX" +:+ nl) in
  let script_contents :=
    script_contents +:+ "libero script:" +:+ _build_name tc +:+ ".tcl" +:+ nl in
  let script_file := "build_" +:+ _build_name tc +:+ script_ext in
  write_to_file script_file script_contents;;
  mret script_file.

(** *** False paths *)

Definition add_false_path_constraint (tc : Toolchain) (p : Platform)
    (from_ to : Signal) : Toolchain :=
  if decide ((to, from_) ∉ false_paths tc)
  then set_false_paths ({[ (from_, to) ]} ∪ false_paths tc) tc
  else tc.

(** *** The build *)

(** The generation hooks a build calls on the tool chain. *)
Inductive hook : Type :=
| IoConstraints | PlacementConstraints | TimingConstraints | Project | Script.

Definition run_hook (tc : Toolchain) (h : hook) : M unit :=
  match h with
  | IoConstraints => build_io_constraints tc;; mret tt
  | PlacementConstraints => build_placement_constraints tc;; mret tt
  | TimingConstraints => build_timing_constraints tc;; mret tt
  | Project => build_project tc;; mret tt
  | Script => build_script tc;; mret tt
  end.

Fixpoint run_hooks (tc : Toolchain) (hs : list hook) : M unit :=
  match hs with
  | [] => mret tt
  | h :: hs' => run_hook tc h;; run_hooks tc hs'
  end.

(** Modelled from the spec: [GenericToolchain.build], the build
    orchestration of [litex/build/generic_toolchain.py], is not among the
    sources.  The spec has the framework call into the tool chain, which
    then writes its files in the order the spec lists them: the IO
    constraint file, the floorplan constraint file, the timing constraint
    file, the project script and the launcher script. *)
Definition GenericToolchain_build (tc : Toolchain) (p : Platform) : M unit :=
  run_hooks (set_platform p tc)
    [IoConstraints; PlacementConstraints; TimingConstraints; Project; Script].

(** [MicrosemiLiberoSoCToolchain.build], first the assignment of
    [self.special_overrides], then the call of [super().build]. *)
Definition select_overrides (tc : Toolchain) (p : Platform) : result Toolchain :=
  let dev := Str.lower (device p) in
  if Str.startswith dev "mpf"
  then Ok (set_special_overrides microsemi_mpf_special_overrides tc)
  else if Str.startswith dev "m2s" || Str.startswith dev "m2gl"
  then Ok (set_special_overrides microsemi_m2s_special_overrides tc)
  else Raise (ValueError ("Unsupported device family for device: " +:+ device p)).

Definition build (tc : Toolchain) (p : Platform) : M unit :=
  match select_overrides tc p with
  | Ok tc' => GenericToolchain_build tc' p
  | Raise e => raise e
  end.

End Toolchain.

(** ** Paths *)

(** [posixpath.join(a, *p)] *)
Definition posixpath_join (a : string) (p : list string) : string :=
  foldl (λ path b,
           if Str.startswith b "/" then b
           else if bool_decide (path = "") || Str.endswith_char path "/" then path +:+ b
           else path +:+ "/" +:+ b) a p.

(** [pathlib.Path] on a POSIX system, as far as [programmer.py] uses it: a
    root (empty, one slash or two) and the components below it. *)
Module Path.

Record t : Type := mk { root : string; parts : list string }.

Global Instance eq_dec : EqDecision t.
Proof. solve_decision. Defined.

(** [Path(s)]: two leading slashes are kept as they are, any other number
    counts as one; empty components and single dots are dropped. *)
Definition root_of (s : string) : string :=
  if Str.startswith s "//" && negb (Str.startswith s "///") then "//"
  else if Str.startswith s "/" then "/"
  else "".

Definition parts_of (s : string) : list string :=
  filter (λ c, c ≠ "" ∧ c ≠ ".") (Str.split "/" s).

Definition of_string (s : string) : t := mk (root_of s) (parts_of s).

(** [str(p)] and [p.as_posix()] *)
Definition to_string (p : t) : string :=
  match root p, parts p with
  | "", [] => "."
  | r, ps => r +:+ Str.join "/" ps
  end.

(** [p.name] *)
Definition name (p : t) : string := default "" (last (parts p)).

(** [p.parent] *)
Definition parent (p : t) : t := mk (root p) (removelast (parts p)).

(** [p / c] for a single relative component. *)
Definition joinpath (p : t) (c : string) : t := mk (root p) (parts p ++ [c]).

(** [name.rfind(".")], counted from the front; [None] for Python's [-1]. *)
Fixpoint rfind_dot (s : string) : option nat :=
  match s with
  | EmptyString => None
  | String c s' =>
      match rfind_dot s' with
      | Some i => Some (S i)
      | None => if decide (c = "."%char) then Some 0 else None
      end
  end.

Fixpoint prefix_of_length (n : nat) (s : string) : string :=
  match n, s with
  | S n', String c s' => String c (prefix_of_length n' s')
  | _, _ => EmptyString
  end.

(** [p.stem] *)
Definition stem (p : t) : string :=
  let nm := name p in
  match rfind_dot nm with
  | Some i => if decide (0 < i ∧ i < String.length nm - 1) then prefix_of_length i nm else nm
  | None => nm
  end.

(** Every directory on the way down to [p], [p] included. *)
Definition lineage (p : t) : list string :=
  map (λ k, to_string (mk (root p) (take k (parts p)))) (seq 1 (length (parts p))).

End Path.

(** ** The FlashPro Express programmer *)

(** What the machine does with one programming run: how writing the control
    script ends, and how the programming tool ends. *)
Inductive write_outcome : Type :=
| Written
| OpenFailed (err : string)
| WriteFailed (on_disk err : string).

Inductive tool_outcome : Type :=
| Exited (returncode : Z) (leaves : gmap string string → gmap string string)
| NotStarted (err : string).

Record Machine : Type := mkMachine {
  script_write : write_outcome;
  tool : tool_outcome
}.

Record FlashProExpressProgrammer : Type := mkProgrammer {
  programmer_device : option string;
  fpexpress_executable : string
}.

(** Where [os.makedirs] is refused on its way down to a path, the
    directories being tried from the top: no directory can be made below a
    regular file ([NotADirectoryError], raised for the directory that was to
    be made there) nor where a regular file already is ([FileExistsError]).
    The exception carries the path it is raised for. *)
Fixpoint mkdir_refused (fs : gmap string string) (lineage : list string) : option exn :=
  match lineage with
  | [] => None
  | d :: below =>
      if decide (is_Some (fs !! d))
      then match below with
           | child :: _ => Some (NotADirectoryError child)
           | [] => Some (FileExistsError d)
           end
      else mkdir_refused fs below
  end.

(** [os.makedirs(path, exist_ok=True)]: directories that exist are left
    alone, the missing ones are made, and nothing is made when the call is
    refused. *)
Definition makedirs (path : string) : M unit :=
  λ w, let lineage := Path.lineage (Path.of_string path) in
       match mkdir_refused (files w) lineage with
       | Some e => (Raise e, w)
       | None => (Ok tt, mkWorld (files w) (list_to_set lineage ∪ dirs w) (launched w))
       end.

(** [try: body finally: cleanup] *)
Definition try_finally {A} (body : M A) (cleanup : M unit) : M A :=
  λ w, match body w with
       | (r, w') =>
           match cleanup w' with
           | (Ok _, w'') => (r, w'')
           | (Raise e, w'') => (Raise e, w'')
           end
       end.

(** [die, _, _ = device_string.split("-")] *)
Definition unpack_die (device_string : string) : result string :=
  match Str.split "-" device_string with
  | [die; _; _] => Ok die
  | _ :: _ :: _ :: _ :: _ => Raise (ValueError "too many values to unpack (expected 3)")
  | l => Raise (ValueError ("not enough values to unpack (expected 3, got "
                              +:+ Str.of_nat (length l) +:+ ")"))
  end.

(** The statements of the programmer control script. *)
Definition program_tcl (project_name programmer_proj_path job_file_path die : string)
  : list string :=
  [ "# Generated for project: " +:+ project_name;
    Str.join " " [ "create_job_project";
      "-job_project_location {" +:+ programmer_proj_path +:+ "}";
      "-job_file {" +:+ job_file_path +:+ "}";
      "-overwrite 1" ];
    Str.join " " [ "set_programming_action"; "-name {" +:+ die +:+ "}"; "-action {PROGRAM}" ];
    Str.join " " [ "run_selected_actions"; "-prog_spi_flash 0"; "-disable_prog_design 0" ];
    "save_project";
    "puts " +:+ String (ascii_of_nat 34) "\nSUCCESS: Device programming script finished."
      +:+ String (ascii_of_nat 34) "" ].

(** The first [try]: [with open(tcl_file, "w") as f: f.write(...)], an
    [IOError] wrapped and raised again. *)
Definition write_script (m : Machine) (tcl_file contents : string) : M unit :=
  λ w, match script_write m with
       | Written =>
           (Ok tt, mkWorld (<[tcl_file := contents]> (files w)) (dirs w) (launched w))
       | OpenFailed err =>
           (Raise (IOError ("Failed to create Tcl script: " +:+ err)), w)
       | WriteFailed on_disk err =>
           (Raise (IOError ("Failed to create Tcl script: " +:+ err)),
            mkWorld (<[tcl_file := on_disk]> (files w)) (dirs w) (launched w))
       end.

(** [subprocess.run(command, check=True, ...)] with the handler that
    reports a [CalledProcessError] and raises it again. *)
Definition run_fpexpress (m : Machine) (command : list string) : M unit :=
  λ w, match tool m with
       | Exited rc leaves =>
           let w' := mkWorld (leaves (files w)) (dirs w) (launched w ++ [command]) in
           if decide (rc = 0%Z) then (Ok tt, w') else (Raise (CalledProcessError rc), w')
       | NotStarted err => (Raise (OSError err), w)
       end.

(** The [finally] clause: [if tcl_file.exists(): os.remove(tcl_file)] *)
Definition remove_script (tcl_file : string) : M unit :=
  λ w, if decide (is_Some (files w !! tcl_file))
       then (Ok tt, mkWorld (delete tcl_file (files w)) (dirs w) (launched w))
       else (Ok tt, w).

Definition program_device (self : FlashProExpressProgrammer) (m : Machine)
    (build_dir project_name device_string : string) : M unit :=
  let job_file_path :=
    posixpath_join build_dir
      ["impl"; "designer"; project_name; "export"; project_name +:+ ".job"] in
  let programmer_proj_path := posixpath_join build_dir ["impl"; "programmer"] in
  makedirs programmer_proj_path;;
  match unpack_die device_string with
  | Raise e => raise e
  | Ok die =>
      let tcl := program_tcl project_name programmer_proj_path job_file_path die in
      let tcl_script_content := Str.join nl tcl in
      let tcl_file := Path.to_string (Path.joinpath (Path.of_string build_dir) "program_device.tcl") in
      write_script m tcl_file tcl_script_content;;
      let command := [fpexpress_executable self; "SCRIPT:" +:+ tcl_file] in
      try_finally (run_fpexpress m command) (remove_script tcl_file)
  end.

(** One round of [while p.name != 'impl' and p != p.parent: p = p.parent];
    a round whose test fails leaves the path as it is. *)
Definition climb (p : Path.t) : Path.t :=
  if bool_decide (Path.name p ≠ "impl") && bool_decide (p ≠ Path.parent p)
  then Path.parent p else p.

(** The loop itself: a path has no more rounds in it than components. *)
Definition find_impl (p : Path.t) : Path.t :=
  Nat.iter (length (Path.parts p)) climb p.

(** [load_bitstream]; [kwargs_device] is the [device] entry of [kwargs],
    absent or holding a string or [None]. *)
Definition load_bitstream (self : FlashProExpressProgrammer) (m : Machine)
    (bitstream_filename : string) (kwargs_device : option (option string)) : M unit :=
  let bitstream_path := Path.of_string bitstream_filename in
  let build_dir_path := find_impl bitstream_path in
  if bool_decide (Path.name build_dir_path ≠ "impl")
  then raise (NotADirectoryError
                ("Could not find 'impl' directory in the path of " +:+ bitstream_filename))
  else
    let build_dir := Path.to_string (Path.parent build_dir_path) in
    let project_name := Path.stem bitstream_path in
    let device := default (programmer_device self) kwargs_device in
    match device with
    | None | Some "" =>
        raise (ValueError
                 "No device specified. Provide it with --device or set the 'device' attribute in the platform file.")
    | Some device => program_device self m build_dir project_name device
    end.

(** [FlashProExpressProgrammer.__init__] and [find_fpexpress]: [system] is
    [platform.system()], [which] is [shutil.which]. *)
Inductive located : Type :=
| Located (path : string)
| FileNotFoundError (msg : string).

Definition find_fpexpress (system : string) (which : string → option string) : located :=
  let fpexpress_cmd := if decide (system = "Windows") then "FPExpress" else "fpexpress" in
  match which fpexpress_cmd with
  | Some path => Located path
  | None =>
      let fpexpress_cmd := if decide (system = "Windows") then "fpexpress" else "FPExpress" in
      match which fpexpress_cmd with
      | Some path => Located path
      | None =>
          FileNotFoundError
            ("'" +:+ fpexpress_cmd +:+ "' not found in the system PATH. "
               +:+ "Please ensure Microchip Libero/FlashPro Express is installed and its 'bin' directory is in your PATH.")
      end
  end.

Definition FlashProExpressProgrammer_init (system : string)
    (which : string → option string) (device : option string)
  : FlashProExpressProgrammer + string :=
  match find_fpexpress system which with
  | Located path => inl (mkProgrammer device path)
  | FileNotFoundError msg => inr msg
  end.

(** ** Running the build script *)

(** What the machine answers while [run_script] runs: [which("libero")], the
    exit status of the shell, and the files and directories the tool
    leaves. *)
Record Host : Type := mkHost {
  which_libero : option string;
  shell_returncode : Z;
  shell_leaves : gmap string string → gmap string string;
  shell_leaves_dirs : gset string → gset string
}.

(** [path] is [dir] itself or lies below it. *)
Definition inside (dir path : string) : bool :=
  bool_decide (path = dir) || Str.startswith path (dir +:+ "/").

(** [os.path.exists(path)] *)
Definition path_exists (path : string) (w : World) : bool :=
  bool_decide (path ∈ dirs w) || bool_decide (is_Some (files w !! path)).

(** [shutil.rmtree(path)]: a directory goes with all it holds, a regular
    file is refused, and so is a path that does not exist, with an [OSError]
    of the file-not-found kind. *)
Definition rmtree (path : string) : M unit :=
  λ w, if decide (path ∈ dirs w)
       then (Ok tt,
             mkWorld (filter (λ kv, inside path kv.1 = false) (files w))
               (filter (λ d, inside path d = false) (dirs w)) (launched w))
       else if decide (is_Some (files w !! path))
       then (Raise (NotADirectoryError path), w)
       else (Raise (OSError path), w).

(** [subprocess.call(command)] of the launcher. *)
Definition subprocess_call (host : Host) (command : list string) : M Z :=
  λ w, (Ok (shell_returncode host),
        mkWorld (shell_leaves host (files w)) (shell_leaves_dirs host (dirs w))
          (launched w ++ [command])).

(** [MicrosemiLiberoSoCToolchain.run_script] *)
Definition run_script (sys_platform : string) (host : Host) (script : string) : M unit :=
  (λ w, if path_exists "impl" w then rmtree "impl" w else (Ok tt, w));;
  let shell :=
    if decide (sys_platform = "win32" ∨ sys_platform = "cygwin")
    then ["cmd"; "/c"] else ["bash"] in
  match which_libero host with
  | None => raise (OSError ("Unable to find Libero SoC toolchain." +:+ nl))
  | Some _ =>
      rc ← subprocess_call host (shell ++ [script]);
      if decide (rc ≠ 0%Z) then raise (OSError "Subprocess failed") else mret tt
  end.

(** ** False paths registered on the platform *)

(** What [MicrosemiPlatform.add_false_path_constraint] is handed: a signal,
    or an object with a [p] attribute, such as a differential pair. *)
Inductive endpoint : Type :=
| Plain (s : Signal)
| WithP (p n : Signal).

Definition endpoint_signal (e : endpoint) : Signal :=
  match e with
  | Plain s => s
  | WithP p _ => p
  end.

(** [sig.attr.add(a)], with the [attr] sets of all signals in one map. *)
Definition attr_add (s : Signal) (a : string) (attrs : gmap Signal (gset string))
  : gmap Signal (gset string) :=
  <[s := {[a]} ∪ default ∅ (attrs !! s)]> attrs.

(** [MicrosemiPlatform.add_false_path_constraint] *)
Definition Platform_add_false_path_constraint {Period : Type} (tc : @Toolchain Period)
    (p : Platform) (attrs : gmap Signal (gset string)) (from_ to : endpoint)
  : Toolchain * gmap Signal (gset string) :=
  let from_ := endpoint_signal from_ in
  let to := endpoint_signal to in
  let attrs := attr_add from_ "keep" attrs in
  let attrs := attr_add to "keep" attrs in
  (add_false_path_constraint tc p from_ to, attrs).

(** [c in s] for a character. *)
Fixpoint has_char (c : ascii) (s : string) : bool :=
  match s with
  | EmptyString => false
  | String a s' => bool_decide (a = c) || has_char c s'
  end.

(** ** Renderings and properties named by the specification *)

Definition concat_all (l : list string) : string := foldr String.app "" l.

(** The flag one attribute adds to a PolarFire line, and to a
    SmartFusion2/IGLOO2 line. *)
Definition attr_flag_mpf (c : Constraint) : string :=
  match c with
  | Pins (id0 :: _) => "-pin_name " +:+ id0 +:+ " "
  | IOStandard name => "-io_std " +:+ name +:+ " "
  | Misc misc => "-RES_PULL " +:+ misc +:+ " "
  | _ => ""
  end.

Definition attr_flag_m2s (c : Constraint) : string :=
  match c with
  | Pins (id0 :: _) => "-pinname " +:+ id0 +:+ " "
  | IOStandard name => "-iostd " +:+ name +:+ " "
  | Misc misc => "-RES_PULL " +:+ misc +:+ " "
  | _ => ""
  end.

Definition is_pins (c : Constraint) : bool := if c is Pins _ then true else false.
Definition is_iostandard (c : Constraint) : bool := if c is IOStandard _ then true else false.
Definition is_misc (c : Constraint) : bool := if c is Misc _ then true else false.

(** The PolarFire line with its flags in the fixed order of the
    specification: pin identifiers first, then the electrical standards, then
    the pull settings, whatever the order of the attribute list. *)
Definition fixed_order_line_mpf (signame pin_id : string) (others : list Constraint)
  : string :=
  "set_io -port_name " +:+ tcl_name signame +:+ " "
    +:+ "-pin_name " +:+ pin_id +:+ " "
    +:+ concat_all (map attr_flag_mpf (filter is_pins others))
    +:+ concat_all (map attr_flag_mpf (filter is_iostandard others))
    +:+ concat_all (map attr_flag_mpf (filter is_misc others))
    +:+ "-fixed true" +:+ nl.

(** The line for one pin, with the flags of the attribute list in list
    order, in the syntax of the device's family. *)
Definition pdc_line (dev signame pin_id : string) (others : list Constraint) : string :=
  if Str.startswith dev "mpf"
  then "set_io -port_name " +:+ tcl_name signame +:+ " "
         +:+ "-pin_name " +:+ pin_id +:+ " "
         +:+ concat_all (map attr_flag_mpf others) +:+ "-fixed true" +:+ nl
  else "set_io " +:+ tcl_name signame +:+ " "
         +:+ "-pinname " +:+ pin_id +:+ " "
         +:+ concat_all (map attr_flag_m2s others) +:+ "-fixed true" +:+ nl.

(** The lines of a vector signal: bit [i] is named [sig[i]] and bound to the
    pin at position [i]. *)
Definition vector_lines (dev sig : string) (pins : list string)
    (others : list Constraint) : list string :=
  imap (λ i p, pdc_line dev (sig +:+ "[" +:+ Str.of_nat i +:+ "]") p others) pins.

(** No attribute object of the list is a [Pins] without identifiers, on
    which [c.identifiers[0]] would fail. *)
Definition pins_have_identifiers (others : list Constraint) : Prop :=
  Forall (λ c, c ≠ Pins []) others.

(** A false-path set that holds no pair together with its mirror image. *)
Definition one_direction (fp : gset (Signal * Signal)) : Prop :=
  ∀ a b, (a, b) ∈ fp → (b, a) ∈ fp → a = b.

(** The stored pairs that stand for the unordered pair of [a] and [b]. *)
Definition stored_for (a b : Signal) (fp : gset (Signal * Signal)) : gset (Signal * Signal) :=
  filter (λ q, q = (a, b) ∨ q = (b, a)) fp.

Definition with_placement_constraints (pcs : list (string * string * string))
    (p : Platform) : Platform :=
  mkPlatform (device p) (sources p) pcs.

(** The lines one entry of [named_sc] adds to the IO constraint file. *)
Definition entry_lines (dev : string) (sc : SignalConstraint) : list string :=
  let '(sig, pins, others, resname) := sc in
  if decide (1 < length pins) then vector_lines dev sig pins others
  else match pins with
       | p0 :: _ => [pdc_line dev sig p0 others]
       | [] => []
       end.

(** An entry the formatter can render: at least one pin, every pin a
    single identifier, no attribute a [Pins] without identifiers. *)
Definition entry_well_formed (Pins_new : string → list string) (sc : SignalConstraint)
  : Prop :=
  let '(sig, pins, others, resname) := sc in
  pins ≠ [] ∧ (∀ p, p ∈ pins → Pins_new p = [p]) ∧ pins_have_identifiers others.

(** The file a generation hook writes, which is also the name it returns. *)
Definition generated_file {Period : Type} (sys_platform : string) (tc : @Toolchain Period)
    (h : hook) : string :=
  match h with
  | IoConstraints => _build_name tc +:+ "_io.pdc"
  | PlacementConstraints => _build_name tc +:+ "_fp.pdc"
  | TimingConstraints => _build_name tc +:+ ".sdc"
  | Project => _build_name tc +:+ ".tcl"
  | Script =>
      "build_" +:+ _build_name tc
        +:+ (if decide (sys_platform = "win32" ∨ sys_platform = "cygwin") then ".bat" else ".sh")
  end.

(** A run of calls of [add_false_path_constraint], one for each pair of
    the list, in order. *)
Definition register_false_paths {Period : Type} (tc : @Toolchain Period) (p : Platform)
    (pairs : list (Signal * Signal)) : @Toolchain Period :=
  foldl (λ tc' pair, add_false_path_constraint tc' p pair.1 pair.2) tc pairs.

(** The script begins with a [new_project] statement, and [option] is one
    of the options of that statement. *)
Definition new_project_option (script option : string) : Prop :=
  ∃ options rest,
    script = Str.join nl (Str.join " " options :: rest)
    ∧ options !! 0 = Some "new_project"
    ∧ option ∈ options.

(** ** A board and a machine to run the definitions on *)

Module Demo.

Definition board (dev : string) : Platform :=
  mkPlatform dev [("top.v", "verilog", "work")] [].

Definition toolchain (dev : string) : @Toolchain N :=
  mkToolchain None [] [] [] ∅ ∅
    [("serial_tx", ["A1"], [IOStandard "LVCMOS33"], "serial")] "top" (board dev).

Definition empty_world : World := mkWorld ∅ ∅ [].

Definition str_period (period : N) : string := pretty period.
Definition get_name (s : Signal) : string := "sig" +:+ pretty s.
Definition Pins_new (pin : string) : list string := [pin].

Definition programmer : FlashProExpressProgrammer := mkProgrammer None "fpexpress".

(** A whole build for the device [dev], from an empty directory. *)
Definition build_for (dev : string) : result unit * World :=
  build str_period get_name get_name Pins_new "linux" (toolchain dev) (board dev) empty_world.

Definition hooks_for (dev : string) (hs : list hook) : result unit * World :=
  run_hooks str_period get_name get_name Pins_new "linux" (toolchain dev) hs empty_world.

End Demo.

(** ** Strings *)

Lemma app_cons (c : ascii) (s t : string) : String c s +:+ t = String c (s +:+ t).
Proof. reflexivity. Qed.

Lemma app_empty_l (s : string) : "" +:+ s = s.
Proof. reflexivity. Qed.

Lemma app_empty_r (s : string) : s +:+ "" = s.
Proof. induction s as [|c s IH]; [done|]. by rewrite app_cons, IH. Qed.

Lemma app_assoc_str (s t u : string) : (s +:+ t) +:+ u = s +:+ t +:+ u.
Proof. induction s as [|c s IH]; [done|]. by rewrite !app_cons, IH. Qed.

Lemma lower_ascii_upper (c : ascii) : Str.lower_ascii (Str.upper_ascii c) = Str.lower_ascii c.
Proof. by destruct c as [[] [] [] [] [] [] [] []]. Qed.

Lemma lower_upper (s : string) : Str.lower (Str.upper s) = Str.lower s.
Proof. induction s as [|c s IH]; simpl; [done|]. by rewrite lower_ascii_upper, IH. Qed.

Lemma lower_ascii_idem (c : ascii) : Str.lower_ascii (Str.lower_ascii c) = Str.lower_ascii c.
Proof. by destruct c as [[] [] [] [] [] [] [] []]. Qed.

Lemma lower_idem (s : string) : Str.lower (Str.lower s) = Str.lower s.
Proof. induction s as [|c s IH]; simpl; [done|]. by rewrite lower_ascii_idem, IH. Qed.

Lemma split_not_nil (sep : ascii) (s : string) : Str.split sep s ≠ [].
Proof.
  induction s as [|c s IH]; simpl; [done|].
  case_decide; [done|]. by destruct (Str.split sep s).
Qed.

Lemma split_app (sep : ascii) (s t : string) :
  Str.split sep (s +:+ String sep t) = Str.split sep s ++ Str.split sep t.
Proof.
  induction s as [|c s IH].
  - rewrite app_empty_l. simpl. by rewrite decide_True.
  - rewrite app_cons. simpl. rewrite IH. case_decide; [done|].
    pose proof (split_not_nil sep s). by destruct (Str.split sep s).
Qed.

(** A field of a split string does not begin with the separator. *)
Lemma split_field_start (sep : ascii) (s f : string) :
  f ∈ Str.split sep s → Str.startswith f (String sep "") = false.
Proof.
  revert f. induction s as [|c s IH]; intros f; simpl.
  - intros ->%list_elem_of_singleton. done.
  - case_decide as Hc.
    + intros [->|?]%elem_of_cons; [done|]. by apply IH.
    + pose proof (split_not_nil sep s) as Hne.
      destruct (Str.split sep s) as [|w ws]; [done|].
      intros [->|?]%elem_of_cons.
      * simpl. by rewrite decide_False by congruence.
      * apply IH. by right.
Qed.

(** ** The device-family dispatcher *)

Lemma m2s_not_mpf (dev : string) :
  Str.startswith dev "m2s" = true ∨ Str.startswith dev "m2gl" = true →
  Str.startswith dev "mpf" = false.
Proof.
  destruct dev as [|a [|b r]]; simpl; [by intros [|]|..].
  - destruct (decide ("m"%char = a)); by intros [|].
  - destruct (decide ("m"%char = a)); [|done].
    destruct (decide ("2"%char = b)) as [<-|]; [done|]. by intros [|].
Qed.

Lemma build_project_mpf_writes {Period : Type} (tc : @Toolchain Period) (w : World)
    (die package speed : string) :
  device_fields (device (platform tc)) = Ok (die, package, speed) →
  build_project_mpf tc w
  = (Ok (_build_name tc +:+ ".tcl"),
     mkWorld
       (<[_build_name tc +:+ ".tcl" :=
            Str.join nl (tcl_mpf (_build_name tc) die package (formatted_speed speed)
                           (sources (platform tc)))]> (files w))
       (dirs w) (launched w)).
Proof. intros Hdev. unfold build_project_mpf. by rewrite Hdev. Qed.

Lemma build_project_m2s_writes {Period : Type} (tc : @Toolchain Period) (w : World)
    (die package speed : string) :
  device_fields (device (platform tc)) = Ok (die, package, speed) →
  build_project_m2s tc w
  = (Ok (_build_name tc +:+ ".tcl"),
     mkWorld
       (<[_build_name tc +:+ ".tcl" :=
            Str.join nl
              (tcl_m2s (if Str.startswith (Str.lower (device (platform tc))) "m2s"
                        then "SmartFusion2" else "IGLOO2")
                 (_build_name tc) die package (formatted_speed speed)
                 (sources (platform tc)))]> (files w))
       (dirs w) (launched w)).
Proof. intros Hdev. unfold build_project_m2s. by rewrite Hdev. Qed.

Lemma tcl_mpf_options (name die package grade : string)
    (srcs : list (string * string * string)) :
  let script := Str.join nl (tcl_mpf name die package grade srcs) in
  new_project_option script "-family {PolarFire}"
  ∧ new_project_option script ("-die {" +:+ die +:+ "}")
  ∧ new_project_option script ("-package {" +:+ package +:+ "}")
  ∧ new_project_option script ("-speed {" +:+ grade +:+ "}").
Proof.
  intros script. unfold script, tcl_mpf, new_project_option.
  repeat split; eexists _, _; (split; [reflexivity|]); (split; [reflexivity|]).
  - by apply (list_elem_of_lookup_2 _ 10).
  - by apply (list_elem_of_lookup_2 _ 11).
  - by apply (list_elem_of_lookup_2 _ 12).
  - by apply (list_elem_of_lookup_2 _ 13).
Qed.

Lemma tcl_m2s_options (family_name name die package grade : string)
    (srcs : list (string * string * string)) :
  let script := Str.join nl (tcl_m2s family_name name die package grade srcs) in
  new_project_option script ("-family {" +:+ family_name +:+ "}")
  ∧ new_project_option script ("-die {" +:+ die +:+ "}")
  ∧ new_project_option script ("-package {" +:+ package +:+ "}")
  ∧ new_project_option script ("-speed {" +:+ grade +:+ "}").
Proof.
  intros script. unfold script, tcl_m2s, new_project_option.
  repeat split; eexists _, _; (split; [reflexivity|]); (split; [reflexivity|]).
  - by apply (list_elem_of_lookup_2 _ 10).
  - by apply (list_elem_of_lookup_2 _ 11).
  - by apply (list_elem_of_lookup_2 _ 12).
  - by apply (list_elem_of_lookup_2 _ 13).
Qed.

(** C1. A device whose lowercased name starts with "mpf" gets the PolarFire
    override table in the tool chain's [special_overrides] and the PolarFire
    project builder, whose script opens a project of the family PolarFire; one
    whose lowercased name starts with "m2s" or "m2gl" gets the
    SmartFusion2/IGLOO2 table and builder, whose script opens a project of the
    family SmartFusion2 or IGLOO2; any other device makes both dispatchers
    raise the unsupported-family error, the project dispatcher with nothing
    written.  Two devices that differ only in letter case get the same
    table. *)
Theorem dispatch_by_family {Period : Type} (tc : @Toolchain Period) (p : Platform) :
  let dev := Str.lower (device p) in
  let tcp := set_platform p tc in
  let project_family family :=
    ∀ w die package speed, device_fields (device p) = Ok (die, package, speed) →
      ∃ script, build_project tcp w
                = (Ok (_build_name tc +:+ ".tcl"),
                   mkWorld (<[_build_name tc +:+ ".tcl" := script]> (files w))
                     (dirs w) (launched w))
        ∧ new_project_option script ("-family {" +:+ family +:+ "}") in
  (Str.startswith dev "mpf" = true →
     select_overrides tc p = Ok (set_special_overrides microsemi_mpf_special_overrides tc)
     ∧ (∃ tc', select_overrides tc p = Ok tc'
          ∧ special_overrides tc' = Some microsemi_mpf_special_overrides)
     ∧ build_project tcp = build_project_mpf tcp
     ∧ project_family "PolarFire")
  ∧ (Str.startswith dev "m2s" = true ∨ Str.startswith dev "m2gl" = true →
     select_overrides tc p = Ok (set_special_overrides microsemi_m2s_special_overrides tc)
     ∧ (∃ tc', select_overrides tc p = Ok tc'
          ∧ special_overrides tc' = Some microsemi_m2s_special_overrides)
     ∧ build_project tcp = build_project_m2s tcp
     ∧ project_family (if Str.startswith dev "m2s" then "SmartFusion2" else "IGLOO2"))
  ∧ (Str.startswith dev "mpf" = false → Str.startswith dev "m2s" = false →
     Str.startswith dev "m2gl" = false →
     let err := ValueError ("Unsupported device family for device: " +:+ device p) in
     select_overrides tc p = Raise err
     ∧ (∀ w, build_project tcp w = (Raise err, w)))
  ∧ (∀ p' t, Str.lower (device p') = dev →
       (∃ tc', select_overrides tc p' = Ok tc' ∧ special_overrides tc' = Some t)
       ↔ (∃ tc', select_overrides tc p = Ok tc' ∧ special_overrides tc' = Some t)).
Proof.
  intros dev tcp project_family.
  assert (Hmpf : Str.startswith dev "mpf" = true →
            select_overrides tc p
            = Ok (set_special_overrides microsemi_mpf_special_overrides tc)).
  { intros H. unfold select_overrides. fold dev. by rewrite H. }
  assert (Hm2s : Str.startswith dev "m2s" = true ∨ Str.startswith dev "m2gl" = true →
            select_overrides tc p
            = Ok (set_special_overrides microsemi_m2s_special_overrides tc)).
  { intros H. unfold select_overrides. fold dev. rewrite (m2s_not_mpf dev H).
    by destruct H as [-> | ->]; [|rewrite orb_true_r]. }
  assert (Hbmpf : Str.startswith dev "mpf" = true → build_project tcp = build_project_mpf tcp).
  { intros H. unfold build_project. simpl. fold dev. by rewrite H. }
  assert (Hbm2s : Str.startswith dev "m2s" = true ∨ Str.startswith dev "m2gl" = true →
            build_project tcp = build_project_m2s tcp).
  { intros H. unfold build_project. simpl. fold dev. rewrite (m2s_not_mpf dev H).
    by destruct H as [-> | ->]; [|rewrite orb_true_r]. }
  split; [|split; [|split]].
  - intros H. split; [by apply Hmpf|]. split; [|split; [by apply Hbmpf|]].
    + eexists. split; [by apply Hmpf|done].
    + intros w die package speed Hdev. rewrite (Hbmpf H).
      rewrite (build_project_mpf_writes tcp w die package speed Hdev).
      eexists. split; [done|]. apply tcl_mpf_options.
  - intros H. split; [by apply Hm2s|]. split; [|split; [by apply Hbm2s|]].
    + eexists. split; [by apply Hm2s|done].
    + intros w die package speed Hdev. rewrite (Hbm2s H).
      rewrite (build_project_m2s_writes tcp w die package speed Hdev).
      eexists. split; [done|]. apply tcl_m2s_options.
  - intros H H0 H1. split.
    + unfold select_overrides. fold dev. by rewrite H, H0, H1.
    + intros w. unfold build_project. simpl. fold dev. by rewrite H, H0, H1.
  - intros p' t H. split.
    + intros (tc' & Hs & Ht). unfold select_overrides in *. rewrite H in Hs.
      fold dev. destruct (Str.startswith dev "mpf");
        [|destruct (Str.startswith dev "m2s" || Str.startswith dev "m2gl")];
        simplify_eq; eauto.
    + intros (tc' & Hs & Ht). unfold select_overrides in *. rewrite H.
      fold dev in Hs. destruct (Str.startswith dev "mpf");
        [|destruct (Str.startswith dev "m2s" || Str.startswith dev "m2gl")];
        simplify_eq; eauto.
Qed.

Lemma dispatch_by_family_witness :
  ((∃ tc', select_overrides (Demo.toolchain "") (Demo.board "MPF100T-FCG484-1") = Ok tc'
      ∧ special_overrides tc' = Some microsemi_mpf_special_overrides)
   ∧ build_project (Demo.toolchain "MPF100T-FCG484-1")
     = build_project_mpf (Demo.toolchain "MPF100T-FCG484-1"))
  ∧ ((∃ tc', select_overrides (Demo.toolchain "") (Demo.board "M2GL025-VF256") = Ok tc'
        ∧ special_overrides tc' = Some microsemi_m2s_special_overrides)
     ∧ (∃ script,
          build_project (set_platform (Demo.board "M2GL025-VF256") (Demo.toolchain ""))
            Demo.empty_world
          = (Ok ("top" +:+ ".tcl"),
             mkWorld (<["top" +:+ ".tcl" := script]> (files Demo.empty_world))
               (dirs Demo.empty_world) (launched Demo.empty_world))
          ∧ new_project_option script ("-family {" +:+ "IGLOO2" +:+ "}")))
  ∧ select_overrides (Demo.toolchain "") (Demo.board "xc7a35t-csg324-1")
     = Raise (ValueError "Unsupported device family for device: xc7a35t-csg324-1").
Proof.
  split; [|split].
  - pose proof (dispatch_by_family (Demo.toolchain "") (Demo.board "MPF100T-FCG484-1"))
      as (H & _).
    destruct (H eq_refl) as (_ & Htable & Hbuilder & _).
    exact (conj Htable Hbuilder).
  - pose proof (dispatch_by_family (Demo.toolchain "") (Demo.board "M2GL025-VF256"))
      as (_ & H & _).
    destruct (H (or_intror eq_refl)) as (_ & Htable & _ & Hfamily).
    exact (conj Htable (Hfamily Demo.empty_world "M2GL025" "VF256" "STD" eq_refl)).
  - pose proof (dispatch_by_family (Demo.toolchain "") (Demo.board "xc7a35t-csg324-1"))
      as (_ & _ & H & _).
    exact (proj1 (H eq_refl eq_refl eq_refl)).
Defined.

(** ** Speed grades *)

(** C2. A two-field device gets the grade "STD", which stands after
    [-speed] in the [new_project] statement of the script as it is; the grade
    of a three-field device that is not "STD" in any letter case and has no
    leading dash stands there with one dash in front; a grade that already
    starts with a dash is left as it is by the formatting step and stands
    there unchanged, though no field of a device string split at dashes
    starts with one; a device of one field, or of four or more, makes both
    project builders raise and write nothing. *)
Theorem speed_grade_rendering {Period : Type} (tc : @Toolchain Period) (w : World) :
  let d := device (platform tc) in
  let name := _build_name tc in
  let srcs := sources (platform tc) in
  let family_name :=
    if Str.startswith (Str.lower d) "m2s" then "SmartFusion2" else "IGLOO2" in
  let written tcl :=
    (Ok (name +:+ ".tcl"),
     mkWorld (<[name +:+ ".tcl" := Str.join nl tcl]> (files w)) (dirs w) (launched w)) in
  let speed_written grade (r : result string * World) :=
    ∃ script,
      r = (Ok (name +:+ ".tcl"),
           mkWorld (<[name +:+ ".tcl" := script]> (files w)) (dirs w) (launched w))
      ∧ new_project_option script ("-speed {" +:+ grade +:+ "}") in
  (∀ die package, Str.split "-" d = [die; package] →
     build_project_mpf tc w = written (tcl_mpf name die package "STD" srcs)
     ∧ build_project_m2s tc w = written (tcl_m2s family_name name die package "STD" srcs)
     ∧ speed_written "STD" (build_project_mpf tc w)
     ∧ speed_written "STD" (build_project_m2s tc w))
  ∧ (∀ die package speed, Str.split "-" d = [die; package; speed] →
     Str.upper speed ≠ "STD" → Str.startswith speed "-" = false →
     build_project_mpf tc w = written (tcl_mpf name die package ("-" +:+ speed) srcs)
     ∧ build_project_m2s tc w
       = written (tcl_m2s family_name name die package ("-" +:+ speed) srcs)
     ∧ speed_written ("-" +:+ speed) (build_project_mpf tc w)
     ∧ speed_written ("-" +:+ speed) (build_project_m2s tc w))
  ∧ (∀ speed, Str.startswith speed "-" = true → formatted_speed speed = speed)
  ∧ (∀ die package speed, Str.startswith speed "-" = true →
     new_project_option
       (Str.join nl (tcl_mpf name die package (formatted_speed speed) srcs))
       ("-speed {" +:+ speed +:+ "}")
     ∧ new_project_option
         (Str.join nl (tcl_m2s family_name name die package (formatted_speed speed) srcs))
         ("-speed {" +:+ speed +:+ "}"))
  ∧ (∀ die package speed, Str.split "-" d = [die; package; speed] →
     Str.startswith speed "-" = false)
  ∧ (length (Str.split "-" d) ≠ 2 → length (Str.split "-" d) ≠ 3 →
     let err := ValueError ("Unexpected device string format: " +:+ d) in
     build_project_mpf tc w = (Raise err, w) ∧ build_project_m2s tc w = (Raise err, w)).
Proof.
  intros d name srcs family_name written speed_written.
  assert (Hsigned : ∀ speed, Str.startswith speed "-" = true → formatted_speed speed = speed).
  { intros speed Hs. unfold formatted_speed. rewrite Hs. by case_decide. }
  assert (Hrun : ∀ die package speed, device_fields d = Ok (die, package, speed) →
            (build_project_mpf tc w
             = written (tcl_mpf name die package (formatted_speed speed) srcs)
             ∧ build_project_m2s tc w
               = written (tcl_m2s family_name name die package (formatted_speed speed) srcs))
            ∧ speed_written (formatted_speed speed) (build_project_mpf tc w)
            ∧ speed_written (formatted_speed speed) (build_project_m2s tc w)).
  { intros die package speed Hdev.
    pose proof (build_project_mpf_writes tc w die package speed Hdev) as Hmpf.
    pose proof (build_project_m2s_writes tc w die package speed Hdev) as Hm2s.
    split; [by split|]. split.
    - eexists. split; [exact Hmpf|]. apply tcl_mpf_options.
    - eexists. split; [exact Hm2s|]. apply tcl_m2s_options. }
  split; [|split; [|split; [|split; [|split]]]].
  - intros die package Hsplit.
    destruct (Hrun die package "STD") as ((Hmpf & Hm2s) & Hsmpf & Hsm2s).
    { unfold device_fields. fold d. by rewrite Hsplit. }
    done.
  - intros die package speed Hsplit Hstd Hdash.
    assert (Hf : formatted_speed speed = "-" +:+ speed).
    { unfold formatted_speed. rewrite decide_False by done. by rewrite Hdash. }
    destruct (Hrun die package speed) as ((Hmpf & Hm2s) & Hsmpf & Hsm2s).
    { unfold device_fields. fold d. by rewrite Hsplit. }
    rewrite Hf in Hmpf, Hm2s, Hsmpf, Hsm2s. done.
  - exact Hsigned.
  - intros die package speed Hs. rewrite (Hsigned speed Hs).
    split; [apply tcl_mpf_options|apply tcl_m2s_options].
  - intros die package speed Hsplit. apply (split_field_start "-" d).
    rewrite Hsplit. by apply (list_elem_of_lookup_2 _ 2).
  - intros H2 H3 err. split.
    + unfold build_project_mpf, device_fields. fold d.
      by destruct (Str.split "-" d) as [|a [|b [|c [|e l]]]].
    + unfold build_project_m2s, device_fields. fold d.
      by destruct (Str.split "-" d) as [|a [|b [|c [|e l]]]].
Qed.

Lemma speed_grade_rendering_witness :
  (∃ script,
     build_project_mpf (Demo.toolchain "mpf100t-fcg484") Demo.empty_world
     = (Ok ("top" +:+ ".tcl"),
        mkWorld (<["top" +:+ ".tcl" := script]> (files Demo.empty_world))
          (dirs Demo.empty_world) (launched Demo.empty_world))
     ∧ new_project_option script ("-speed {" +:+ "STD" +:+ "}"))
  ∧ (∃ script,
       build_project_m2s (Demo.toolchain "m2s010-tq144-1") Demo.empty_world
       = (Ok ("top" +:+ ".tcl"),
          mkWorld (<["top" +:+ ".tcl" := script]> (files Demo.empty_world))
            (dirs Demo.empty_world) (launched Demo.empty_world))
       ∧ new_project_option script ("-speed {" +:+ ("-" +:+ "1") +:+ "}"))
  ∧ formatted_speed "-1" = "-1"
  ∧ new_project_option
      (Str.join nl (tcl_mpf "top" "mpf100t" "fcg484" (formatted_speed "-1")
                      [("top.v", "verilog", "work")]))
      ("-speed {" +:+ "-1" +:+ "}")
  ∧ build_project_mpf (Demo.toolchain "mpf100t") Demo.empty_world
    = (Raise (ValueError "Unexpected device string format: mpf100t"), Demo.empty_world)
  ∧ build_project_m2s (Demo.toolchain "m2s010-tq144-1-es") Demo.empty_world
    = (Raise (ValueError "Unexpected device string format: m2s010-tq144-1-es"),
       Demo.empty_world).
Proof.
  split; [|split; [|split; [|split; [|split]]]].
  - pose proof (speed_grade_rendering (Demo.toolchain "mpf100t-fcg484") Demo.empty_world)
      as (H & _).
    destruct (H "mpf100t" "fcg484" eq_refl) as (_ & _ & Hmpf & _). exact Hmpf.
  - pose proof (speed_grade_rendering (Demo.toolchain "m2s010-tq144-1") Demo.empty_world)
      as (_ & H & _).
    assert (Hstd : Str.upper "1" ≠ "STD") by discriminate.
    destruct (H "m2s010" "tq144" "1" eq_refl Hstd eq_refl) as (_ & _ & _ & Hm2s).
    exact Hm2s.
  - pose proof (speed_grade_rendering (Demo.toolchain "") Demo.empty_world)
      as (_ & _ & H & _).
    exact (H "-1" eq_refl).
  - pose proof (speed_grade_rendering (Demo.toolchain "") Demo.empty_world)
      as (_ & _ & _ & H & _).
    exact (proj1 (H "mpf100t" "fcg484" "-1" eq_refl)).
  - pose proof (speed_grade_rendering (Demo.toolchain "mpf100t") Demo.empty_world)
      as (_ & _ & _ & _ & _ & H).
    assert (Hn2 : length (Str.split "-" "mpf100t") ≠ 2) by (vm_compute; lia).
    assert (Hn3 : length (Str.split "-" "mpf100t") ≠ 3) by (vm_compute; lia).
    exact (proj1 (H Hn2 Hn3)).
  - pose proof (speed_grade_rendering (Demo.toolchain "m2s010-tq144-1-es") Demo.empty_world)
      as (_ & _ & _ & _ & _ & H).
    assert (Hn2 : length (Str.split "-" "m2s010-tq144-1-es") ≠ 2) by (vm_compute; lia).
    assert (Hn3 : length (Str.split "-" "m2s010-tq144-1-es") ≠ 3) by (vm_compute; lia).
    exact (proj2 (H Hn2 Hn3)).
Defined.

(** ** IO constraint lines *)

Lemma concat_all_cons (x : string) (l : list string) :
  concat_all (x :: l) = x +:+ concat_all l.
Proof. reflexivity. Qed.

Lemma concat_all_app (l k : list string) :
  concat_all (l ++ k) = concat_all l +:+ concat_all k.
Proof.
  induction l as [|x l IH]; [done|].
  by rewrite <- app_comm_cons, !concat_all_cons, IH, app_assoc_str.
Qed.

Lemma format_attrs_mpf_flags (r : string) (cs : list Constraint) :
  pins_have_identifiers cs →
  format_attrs_mpf r cs = Ok (r +:+ concat_all (map attr_flag_mpf cs)).
Proof.
  intros Hcs. revert r. induction Hcs as [|c cs Hc _ IH]; intros r.
  - simpl. by rewrite app_empty_r.
  - destruct c as [[|id0 ids]| | | | |]; simpl; try done;
      rewrite IH, ?concat_all_cons, ?app_assoc_str; done.
Qed.

Lemma format_attrs_m2s_flags (r : string) (cs : list Constraint) :
  pins_have_identifiers cs →
  format_attrs_m2s r cs = Ok (r +:+ concat_all (map attr_flag_m2s cs)).
Proof.
  intros Hcs. revert r. induction Hcs as [|c cs Hc _ IH]; intros r.
  - simpl. by rewrite app_empty_r.
  - destruct c as [[|id0 ids]| | | | |]; simpl; try done;
      rewrite IH, ?concat_all_cons, ?app_assoc_str; done.
Qed.

Lemma format_io_pdc_line (Pins_new : string → list string) (dev signame pin id0 : string)
    (ids : list string) (others : list Constraint) :
  Pins_new pin = id0 :: ids → pins_have_identifiers others →
  format_io_pdc Pins_new dev signame pin others = Ok (pdc_line dev signame id0 others).
Proof.
  intros Hpin Hothers. unfold format_io_pdc, pdc_line.
  destruct (Str.startswith dev "mpf").
  - unfold _format_io_pdc_mpf. rewrite Hpin. simpl.
    rewrite format_attrs_mpf_flags by done. by rewrite !app_assoc_str.
  - unfold _format_io_pdc_m2s. rewrite Hpin. simpl.
    rewrite format_attrs_m2s_flags by done. by rewrite !app_assoc_str.
Qed.

Lemma io_vector_loop_lines (Pins_new : string → list string) (dev sig : string)
    (others : list Constraint) (pins : list string) (i : nat) (pdc : string) :
  (∀ p, p ∈ pins → Pins_new p = [p]) → pins_have_identifiers others →
  io_vector_loop Pins_new dev sig others i pins pdc
    = Ok (pdc +:+ concat_all
            (imap (λ j p, pdc_line dev (sig +:+ "[" +:+ Str.of_nat (i + j) +:+ "]") p others)
               pins)).
Proof.
  intros Hpins Hothers. revert i pdc.
  induction pins as [|p pins IH]; intros i pdc.
  - simpl. by rewrite app_empty_r.
  - cbn [io_vector_loop].
    rewrite (format_io_pdc_line Pins_new dev _ p p []) by (auto using list_elem_of_here).
    rewrite IH by (intros q Hq; apply Hpins; by right).
    rewrite imap_cons, concat_all_cons, Nat.add_0_r, app_assoc_str. do 3 f_equal. f_equal.
    apply imap_ext. intros j q _. simpl. by rewrite Nat.add_succ_r.
Qed.

Lemma io_entries_loop_app (Pins_new : string → list string) (dev : string)
    (before after : list SignalConstraint) (pdc : string) :
  io_entries_loop Pins_new dev (before ++ after) pdc
  = match io_entries_loop Pins_new dev before pdc with
    | Ok pdc' => io_entries_loop Pins_new dev after pdc'
    | Raise e => Raise e
    end.
Proof.
  revert pdc. induction before as [|[[[sig pins] others] resname] before IH]; intros pdc;
    [done|].
  cbn [app io_entries_loop].
  by destruct (if decide (1 < length pins) then _ else _).
Qed.

Lemma io_entry_lines (Pins_new : string → list string) (dev : string)
    (sc : SignalConstraint) (scs : list SignalConstraint) (pdc : string) :
  entry_well_formed Pins_new sc →
  io_entries_loop Pins_new dev (sc :: scs) pdc
  = io_entries_loop Pins_new dev scs (pdc +:+ concat_all (entry_lines dev sc)).
Proof.
  destruct sc as [[[sig pins] others] resname]. intros (Hne & Hpins & Hothers).
  cbn [io_entries_loop entry_lines]. case_decide as Hlen.
  - by rewrite (io_vector_loop_lines Pins_new dev sig others pins 0 pdc).
  - destruct pins as [|p0 pins]; [done|].
    rewrite (format_io_pdc_line Pins_new dev sig p0 p0 [])
      by (auto using list_elem_of_here).
    by rewrite concat_all_cons, app_empty_r.
Qed.

Lemma io_entries_lines (Pins_new : string → list string) (dev : string)
    (scs : list SignalConstraint) (pdc : string) :
  Forall (entry_well_formed Pins_new) scs →
  io_entries_loop Pins_new dev scs pdc
  = Ok (pdc +:+ concat_all (concat (map (entry_lines dev) scs))).
Proof.
  intros Hscs. revert pdc. induction Hscs as [|sc scs Hsc _ IH]; intros pdc.
  - simpl. by rewrite app_empty_r.
  - rewrite io_entry_lines by done. rewrite IH. cbn [map concat].
    by rewrite concat_all_app, app_assoc_str.
Qed.

(** C3. A signal bound to more than one pin gets one constraint line per
    pin: the line at position [i] is named [sig[i]] and bound to the pin at
    position [i], and the lines are appended in pin order; the constraint
    file holds them at the place of the entry, between the lines of the
    entries before it and those of the entries after it. *)
Theorem vector_signal_lines (Pins_new : string → list string) (dev sig resname : string)
    (pins : list string) (others : list Constraint) (scs : list SignalConstraint)
    (pdc : string) :
  1 < length pins →
  (∀ p, p ∈ pins → Pins_new p = [p]) →
  pins_have_identifiers others →
  length (vector_lines dev sig pins others) = length pins
  ∧ (∀ i p, pins !! i = Some p →
       vector_lines dev sig pins others !! i
         = Some (pdc_line dev (sig +:+ "[" +:+ Str.of_nat i +:+ "]") p others)
       ∧ format_io_pdc Pins_new dev (sig +:+ "[" +:+ Str.of_nat i +:+ "]") p others
         = Ok (pdc_line dev (sig +:+ "[" +:+ Str.of_nat i +:+ "]") p others))
  ∧ io_entries_loop Pins_new dev ((sig, pins, others, resname) :: scs) pdc
    = io_entries_loop Pins_new dev scs
        (pdc +:+ concat_all (vector_lines dev sig pins others))
  ∧ io_entries_loop Pins_new dev [(sig, pins, others, resname)] pdc
    = Ok (pdc +:+ concat_all (vector_lines dev sig pins others))
  ∧ (∀ {Period : Type} (tc : @Toolchain Period) (w : World)
       (before after : list SignalConstraint),
       Str.lower (device (platform tc)) = dev →
       named_sc tc = before ++ (sig, pins, others, resname) :: after →
       Forall (entry_well_formed Pins_new) before →
       Forall (entry_well_formed Pins_new) after →
       build_io_constraints Pins_new tc w
       = (Ok (_build_name tc +:+ "_io.pdc", "PDC"),
          mkWorld
            (<[_build_name tc +:+ "_io.pdc" :=
                 (concat_all (concat (map (entry_lines dev) before))
                  +:+ concat_all (vector_lines dev sig pins others)
                  +:+ concat_all (concat (map (entry_lines dev) after)))
                 +:+ Str.join nl (additional_io_constraints tc)]> (files w))
            (dirs w) (launched w))).
Proof.
  intros Hlen Hpins Hothers.
  assert (Hloop : ∀ scs' pdc',
            io_entries_loop Pins_new dev ((sig, pins, others, resname) :: scs') pdc'
            = io_entries_loop Pins_new dev scs'
                (pdc' +:+ concat_all (vector_lines dev sig pins others))).
  { intros scs' pdc'. simpl. rewrite decide_True by done.
    by rewrite (io_vector_loop_lines Pins_new dev sig others pins 0 pdc'). }
  split; [|split; [|split; [|split]]].
  - unfold vector_lines. by rewrite length_imap.
  - intros i p Hi. split.
    + unfold vector_lines. rewrite list_lookup_imap, Hi. done.
    + apply (format_io_pdc_line Pins_new dev _ p p []); [|done].
      apply Hpins. by eapply list_elem_of_lookup_2.
  - apply Hloop.
  - by rewrite Hloop.
  - intros Period tc w before after Hdev Hsc Hbefore Hafter.
    unfold build_io_constraints. rewrite Hdev, Hsc, io_entries_loop_app.
    rewrite (io_entries_lines Pins_new dev before "" Hbefore), Hloop.
    rewrite (io_entries_lines Pins_new dev after _ Hafter).
    by rewrite app_empty_l, !app_assoc_str.
Qed.

Lemma vector_signal_lines_witness :
  vector_lines "mpf100t-fcg484-1" "led" ["A1"; "B2"; "C3"] [IOStandard "LVCMOS33"]
    = [ "set_io -port_name {led[0]} -pin_name A1 -io_std LVCMOS33 -fixed true" +:+ nl;
        "set_io -port_name {led[1]} -pin_name B2 -io_std LVCMOS33 -fixed true" +:+ nl;
        "set_io -port_name {led[2]} -pin_name C3 -io_std LVCMOS33 -fixed true" +:+ nl ]
  ∧ io_entries_loop Demo.Pins_new "mpf100t-fcg484-1"
      [("led", ["A1"; "B2"; "C3"], [IOStandard "LVCMOS33"], "user_led")] ""
    = Ok ("" +:+ concat_all
            (vector_lines "mpf100t-fcg484-1" "led" ["A1"; "B2"; "C3"]
               [IOStandard "LVCMOS33"])).
Proof.
  split; [vm_compute; reflexivity|].
  assert (Hlen : 1 < length ["A1"; "B2"; "C3"]) by (simpl; lia).
  assert (Hpins : ∀ p : string, p ∈ ["A1"; "B2"; "C3"] → Demo.Pins_new p = [p])
    by (intros p _; reflexivity).
  assert (Hothers : pins_have_identifiers [IOStandard "LVCMOS33"])
    by (repeat constructor; discriminate).
  pose proof (vector_signal_lines Demo.Pins_new "mpf100t-fcg484-1" "led" "user_led"
                ["A1"; "B2"; "C3"] [IOStandard "LVCMOS33"] [] ""
                Hlen Hpins Hothers) as (_ & _ & _ & Hlines & _).
  exact Hlines.
Defined.

(** C4, as the code has it. A line starts with the pin-identifier flag of
    the bound pin; the attributes then add their flags in the order of the
    attribute list, an IO standard its standard flag, a miscellaneous
    setting its pull flag, a further pin object its pin flag; an attribute of
    any other kind adds nothing; the line ends with "-fixed true". *)
Theorem pdc_line_flags (Pins_new : string → list string) (signame pin id0 : string)
    (ids : list string) (others : list Constraint) :
  Pins_new pin = id0 :: ids →
  pins_have_identifiers others →
  _format_io_pdc_mpf Pins_new signame pin others
    = Ok ("set_io -port_name " +:+ tcl_name signame +:+ " "
            +:+ "-pin_name " +:+ id0 +:+ " "
            +:+ concat_all (map attr_flag_mpf others) +:+ "-fixed true" +:+ nl)
  ∧ _format_io_pdc_m2s Pins_new signame pin others
    = Ok ("set_io " +:+ tcl_name signame +:+ " "
            +:+ "-pinname " +:+ id0 +:+ " "
            +:+ concat_all (map attr_flag_m2s others) +:+ "-fixed true" +:+ nl)
  ∧ (∀ c, is_pins c = false → is_iostandard c = false → is_misc c = false →
       attr_flag_mpf c = "" ∧ attr_flag_m2s c = "").
Proof.
  intros Hpin Hothers. split; [|split].
  - pose proof (format_io_pdc_line Pins_new "mpf" signame pin id0 ids others Hpin Hothers)
      as H. exact H.
  - pose proof (format_io_pdc_line Pins_new "" signame pin id0 ids others Hpin Hothers)
      as H. exact H.
  - by intros [ | | | | | ].
Qed.

Lemma pdc_line_flags_witness :
  _format_io_pdc_mpf Demo.Pins_new "led" "A1" [Misc "PULLUP"; Drive "8"; IOStandard "LVCMOS33"]
    = Ok ("set_io -port_name " +:+ tcl_name "led" +:+ " "
            +:+ "-pin_name " +:+ "A1" +:+ " "
            +:+ concat_all (map attr_flag_mpf [Misc "PULLUP"; Drive "8"; IOStandard "LVCMOS33"])
            +:+ "-fixed true" +:+ nl).
Proof.
  assert (Hothers : pins_have_identifiers [Misc "PULLUP"; Drive "8"; IOStandard "LVCMOS33"])
    by (repeat constructor; discriminate).
  exact (proj1 (pdc_line_flags Demo.Pins_new "led" "A1" "A1" []
                  [Misc "PULLUP"; Drive "8"; IOStandard "LVCMOS33"] eq_refl Hothers)).
Defined.

(** The fixed order pin, standard, pull of the specification is not what
    the formatter writes for an attribute list that names the pull setting
    first. *)
Lemma pdc_flags_not_in_fixed_order :
  _format_io_pdc_mpf Demo.Pins_new "led" "A1" [Misc "PULLUP"; IOStandard "LVCMOS33"]
    = Ok ("set_io -port_name {led} -pin_name A1 -RES_PULL PULLUP -io_std LVCMOS33 -fixed true"
            +:+ nl)
  ∧ fixed_order_line_mpf "led" "A1" [Misc "PULLUP"; IOStandard "LVCMOS33"]
    = "set_io -port_name {led} -pin_name A1 -io_std LVCMOS33 -RES_PULL PULLUP -fixed true"
        +:+ nl
  ∧ _format_io_pdc_mpf Demo.Pins_new "led" "A1" [Misc "PULLUP"; IOStandard "LVCMOS33"]
    ≠ Ok (fixed_order_line_mpf "led" "A1" [Misc "PULLUP"; IOStandard "LVCMOS33"]).
Proof. split; [|split]; [vm_compute; reflexivity..|vm_compute; discriminate]. Qed.

(** ** False paths *)

Lemma one_direction_empty : one_direction ∅.
Proof. intros a b Hab. set_solver. Qed.

Lemma add_false_path_one_direction {Period : Type} (tc : @Toolchain Period) (p : Platform)
    (a b : Signal) :
  one_direction (false_paths tc) →
  one_direction (false_paths (add_false_path_constraint tc p a b)).
Proof.
  intros Hfp. unfold add_false_path_constraint.
  case_decide as Hba; [|done]. simpl. intros x y Hxy Hyx.
  apply elem_of_union in Hxy as [Hxy%elem_of_singleton|Hxy];
    apply elem_of_union in Hyx as [Hyx%elem_of_singleton|Hyx]; simplify_eq;
    first [done | by destruct Hba | by apply Hfp].
Qed.

Lemma set_false_paths_same {Period : Type} (tc : @Toolchain Period)
    (fp : gset (Signal * Signal)) :
  fp = false_paths tc → set_false_paths fp tc = tc.
Proof. intros ->. by destruct tc. Qed.

Lemma add_false_path_present {Period : Type} (tc : @Toolchain Period) (p : Platform)
    (a b : Signal) :
  (a, b) ∈ false_paths tc →
  add_false_path_constraint tc p a b = tc ∧ add_false_path_constraint tc p b a = tc.
Proof.
  intros Hab. unfold add_false_path_constraint. split.
  - case_decide; [|done]. apply set_false_paths_same.
    apply subseteq_union_1_L. by apply singleton_subseteq_l.
  - by rewrite decide_False by (intros Hn; by apply Hn).
Qed.

(** C5. Registering the false path (A, B) and then (B, A) leaves exactly
    one stored pair for the unordered pair; registering a pair that is
    already stored, in either order, changes nothing. *)
Theorem false_path_registered_once {Period : Type} (tc : @Toolchain Period) (p : Platform)
    (a b : Signal) :
  one_direction (false_paths tc) →
  size (stored_for a b
          (false_paths
             (add_false_path_constraint (add_false_path_constraint tc p a b) p b a))) = 1
  ∧ (∀ tc' : @Toolchain Period, (a, b) ∈ false_paths tc' →
       add_false_path_constraint tc' p a b = tc'
       ∧ add_false_path_constraint tc' p b a = tc').
Proof.
  intros Hfp. split; [|intros tc' Hab; by apply add_false_path_present].
  unfold stored_for.
  destruct (decide ((b, a) ∈ false_paths tc)) as [Hba|Hba].
  - assert (add_false_path_constraint tc p a b = tc) as ->.
    { unfold add_false_path_constraint. by rewrite decide_False by (intros Hn; by apply Hn). }
    destruct (add_false_path_present tc p b a Hba) as [-> _].
    assert (filter (λ q, q = (a, b) ∨ q = (b, a)) (false_paths tc) = {[ (b, a) ]}) as ->;
      [|by rewrite size_singleton].
    apply set_eq. intros [x y]. rewrite elem_of_filter, elem_of_singleton. split.
    + intros [[Hq|Hq] Hin]; simplify_eq; [|done]. by rewrite (Hfp _ _ Hin Hba).
    + intros Hq. simplify_eq. auto.
  - assert ((a, b) ∈ false_paths (add_false_path_constraint tc p a b)) as Hab.
    { unfold add_false_path_constraint. rewrite decide_True by done. simpl. set_solver. }
    destruct (add_false_path_present _ p a b Hab) as [_ ->].
    assert (filter (λ q, q = (a, b) ∨ q = (b, a))
              (false_paths (add_false_path_constraint tc p a b)) = {[ (a, b) ]}) as ->;
      [|by rewrite size_singleton].
    apply set_eq. intros [x y]. rewrite elem_of_filter, elem_of_singleton. split.
    + intros [[Hq|Hq] Hin]; simplify_eq; [done|].
      unfold add_false_path_constraint in Hin. rewrite decide_True in Hin by done.
      simpl in Hin. apply elem_of_union in Hin as [Hin%elem_of_singleton|Hin]; [done|].
      by destruct Hba.
    + intros Hq. simplify_eq. auto.
Qed.

Lemma false_path_registered_once_witness :
  size (stored_for 1 2
          (false_paths
             (add_false_path_constraint
                (add_false_path_constraint (Demo.toolchain "mpf100t-fcg484-1")
                   (Demo.board "mpf100t-fcg484-1") 1 2)
                (Demo.board "mpf100t-fcg484-1") 2 1)))%N = 1.
Proof.
  exact (proj1 (false_path_registered_once (Demo.toolchain "mpf100t-fcg484-1")
                  (Demo.board "mpf100t-fcg484-1") 1%N 2%N one_direction_empty)).
Defined.

(** ** The build as a sequence of hooks *)

Section Build.

Context {Period : Type}.
Variable str_period : Period → string.
Variable get_name : Signal → string.
Variable str_signal : Signal → string.
Variable Pins_new : string → list string.
Variable sys_platform : string.

Local Abbreviation hooks := (run_hooks str_period get_name str_signal Pins_new sys_platform).

Lemma run_hooks_app (tc : Toolchain) (before after : list hook) (w : World) :
  hooks tc (before ++ after) w
    = match hooks tc before w with
      | (Ok _, w1) => hooks tc after w1
      | (Raise e, w1) => (Raise e, w1)
      end.
Proof.
  revert w. induction before as [|h before IH]; intros w; [done|].
  simpl. unfold mbind, M_bind.
  destruct (run_hook _ _ _ _ _ tc h w) as [[[]|e] w1]; [apply IH|done].
Qed.

Lemma device_fields_malformed (dev : string) :
  length (Str.split "-" dev) ≠ 2 → length (Str.split "-" dev) ≠ 3 →
  device_fields dev = Raise (ValueError ("Unexpected device string format: " +:+ dev)).
Proof.
  intros H2 H3. unfold device_fields.
  by destruct (Str.split "-" dev) as [|a [|b [|c [|e l]]]].
Qed.

Lemma build_project_malformed (tc : @Toolchain Period) (w : World) :
  length (Str.split "-" (device (platform tc))) ≠ 2 →
  length (Str.split "-" (device (platform tc))) ≠ 3 →
  ∃ e, build_project tc w = (Raise e, w).
Proof.
  intros H2 H3. unfold build_project, build_project_mpf, build_project_m2s.
  rewrite device_fields_malformed by done.
  destruct (Str.startswith _ "mpf"); [by eexists|].
  destruct (_ || _); by eexists.
Qed.

(** C6, as the code has it. A device that does not split into two or three
    fields makes the project builders raise before they write anything: the
    files are those that were there when the builder was entered. In a
    build, the hooks that ran before the project hook have already written
    theirs, and no later hook runs. *)
Theorem malformed_device_stops_project (tc : @Toolchain Period) (w : World) :
  length (Str.split "-" (device (platform tc))) ≠ 2 →
  length (Str.split "-" (device (platform tc))) ≠ 3 →
  let err := ValueError ("Unexpected device string format: " +:+ device (platform tc)) in
  build_project_mpf tc w = (Raise err, w)
  ∧ build_project_m2s tc w = (Raise err, w)
  ∧ (∃ e, build_project tc w = (Raise e, w))
  ∧ (∀ before after w1, hooks tc before w = (Ok tt, w1) →
       ∃ e, hooks tc (before ++ Project :: after) w = (Raise e, w1)).
Proof.
  intros H2 H3 err. split; [|split; [|split]].
  - unfold build_project_mpf. by rewrite device_fields_malformed.
  - unfold build_project_m2s. by rewrite device_fields_malformed.
  - by apply build_project_malformed.
  - intros before after w1 Hbefore. rewrite run_hooks_app, Hbefore.
    destruct (build_project_malformed tc w1 H2 H3) as [e He]. exists e.
    simpl. unfold mbind, M_bind. by rewrite He.
Qed.

Lemma run_hook_placement (tc : @Toolchain Period)
    (pcs : list (string * string * string)) (h : hook) :
  run_hook str_period get_name str_signal Pins_new sys_platform
    (set_platform (with_placement_constraints pcs (platform tc)) tc) h
  = run_hook str_period get_name str_signal Pins_new sys_platform tc h.
Proof. destruct tc as [? ? ? ? ? ? ? ? []]. by destruct h. Qed.

(** C10. The floorplan constraint file holds the raw floorplan constraint
    strings joined by newlines and nothing else; no hook of the tool chain
    reads the placement tuples registered on the platform, so runs of the
    hooks, in any order, that differ only in those tuples leave the same
    world. *)
Theorem placement_constraints_unread (tc : @Toolchain Period) (w : World)
    (pcs : list (string * string * string)) (hs : list hook) :
  build_placement_constraints tc w
    = (Ok (_build_name tc +:+ "_fp.pdc", "PDC"),
       mkWorld (<[_build_name tc +:+ "_fp.pdc" := Str.join nl (additional_fp_constraints tc)]>
                  (files w)) (dirs w) (launched w))
  ∧ hooks (set_platform (with_placement_constraints pcs (platform tc)) tc) hs w
    = hooks tc hs w
  ∧ (∀ instance x y,
       hooks (set_platform (add_placement_constraint (platform tc) instance x y) tc) hs w
       = hooks tc hs w).
Proof.
  assert (Hhooks : ∀ pcs' hs' w',
    hooks (set_platform (with_placement_constraints pcs' (platform tc)) tc) hs' w'
    = hooks tc hs' w').
  { intros pcs' hs'. induction hs' as [|h hs' IH]; intros w'; [done|].
    simpl. unfold mbind, M_bind. rewrite run_hook_placement.
    destruct (run_hook _ _ _ _ _ tc h w') as [[[]|e] w1]; [apply IH|done]. }
  split; [done|]. split; [apply Hhooks|].
  intros instance x y. apply (Hhooks (placement_constraints (platform tc) ++ [(instance, x, y)])).
Qed.

End Build.

Lemma malformed_device_stops_project_witness :
  build_project_mpf (Demo.toolchain "mpf100t") Demo.empty_world
    = (Raise (ValueError "Unexpected device string format: mpf100t"), Demo.empty_world)
  ∧ ∃ e, Demo.hooks_for "mpf100t"
           ([IoConstraints; PlacementConstraints; TimingConstraints] ++ Project :: [Script])
         = (Raise e,
            snd (Demo.hooks_for "mpf100t"
                   [IoConstraints; PlacementConstraints; TimingConstraints])).
Proof.
  assert (Hn2 : length (Str.split "-" "mpf100t") ≠ 2) by (vm_compute; lia).
  assert (Hn3 : length (Str.split "-" "mpf100t") ≠ 3) by (vm_compute; lia).
  pose proof (malformed_device_stops_project Demo.str_period Demo.get_name Demo.get_name
                Demo.Pins_new "linux" (Demo.toolchain "mpf100t") Demo.empty_world Hn2 Hn3)
    as (Hmpf & _ & _ & Hhooks).
  split; [exact Hmpf|].
  apply (Hhooks [IoConstraints; PlacementConstraints; TimingConstraints] [Script]).
  vm_compute. reflexivity.
Defined.

(** Files are on disk when a malformed device is rejected in a build: a
    one-field PolarFire name passes the family test, the constraint hooks
    write their files, and only then the project hook raises. *)
Lemma malformed_device_after_constraint_files :
  length (Str.split "-" "mpf100t") = 1
  ∧ fst (Demo.build_for "mpf100t")
    = Raise (ValueError "Unexpected device string format: mpf100t")
  ∧ files (snd (Demo.build_for "mpf100t")) !! "top_io.pdc"
    = Some ("set_io -port_name {serial_tx} -pin_name A1 -io_std LVCMOS33 -fixed true" +:+ nl)
  ∧ files (snd (Demo.build_for "mpf100t")) !! "top_fp.pdc" = Some ""
  ∧ files (snd (Demo.build_for "mpf100t")) !! "top.sdc" = Some ""
  ∧ files (snd (Demo.build_for "mpf100t")) !! "top.tcl" = None
  ∧ files Demo.empty_world = ∅.
Proof. vm_compute. repeat split. Qed.

(** ** Paths of the programmer *)

Lemma startswith_empty (s : string) : Str.startswith s "" = true.
Proof. by destruct s. Qed.


Lemma parts_of_app (pre rest : string) :
  Path.parts_of (pre +:+ String "/" rest) = Path.parts_of pre ++ Path.parts_of rest.
Proof. unfold Path.parts_of. by rewrite split_app, filter_app. Qed.

Lemma climb_up (r x : string) (l : list string) :
  x ≠ "impl" → climb (Path.mk r (l ++ [x])) = Path.mk r l.
Proof.
  intros Hx. unfold climb, Path.name, Path.parent. cbn [Path.parts Path.root].
  rewrite last_snoc, removelast_last. cbn [default from_option]. unfold id.
  rewrite bool_decide_true by done. rewrite bool_decide_true; [done|].
  intros [=H]. apply (f_equal length) in H. rewrite length_app in H. simpl in H. lia.
Qed.

Lemma climb_stays (r : string) (l : list string) :
  climb (Path.mk r (l ++ ["impl"])) = Path.mk r (l ++ ["impl"]).
Proof.
  unfold climb, Path.name. cbn [Path.parts Path.root].
  rewrite last_snoc. cbn [default from_option]. unfold id.
  by rewrite bool_decide_false by (intros H; by apply H).
Qed.

Lemma iter_fixed {A : Type} (f : A → A) (x : A) (n : nat) :
  f x = x → Nat.iter n f x = x.
Proof. intros Hx. induction n as [|n IH]; [done|]. simpl. by rewrite IH. Qed.

Lemma find_impl_none (r : string) (l : list string) :
  "impl" ∉ l → find_impl (Path.mk r l) = Path.mk r [].
Proof.
  unfold find_impl. simpl. induction l as [|x l IH] using rev_ind; [done|].
  intros Hl. rewrite length_app. simpl. rewrite Nat.add_1_r, Nat.iter_succ_r.
  rewrite climb_up by (intros ->; apply Hl; set_solver).
  apply IH. intros Hin. apply Hl. set_solver.
Qed.




(** ** The programmer *)

Lemma unpack_die_wrong_count (device_string : string) :
  length (Str.split "-" device_string) ≠ 3 →
  ∃ msg, unpack_die device_string = Raise (ValueError msg).
Proof.
  intros Hlen. unfold unpack_die.
  destruct (Str.split "-" device_string) as [|a [|b [|c [|d l]]]]; by eauto.
Qed.

Lemma makedirs_made (path : string) (w : World) :
  mkdir_refused (files w) (Path.lineage (Path.of_string path)) = None →
  makedirs path w
  = (Ok tt,
     mkWorld (files w) (list_to_set (Path.lineage (Path.of_string path)) ∪ dirs w)
       (launched w)).
Proof. intros Hfree. unfold makedirs. by rewrite Hfree. Qed.

Lemma makedirs_refused (path : string) (w : World) (e : exn) :
  mkdir_refused (files w) (Path.lineage (Path.of_string path)) = Some e →
  makedirs path w = (Raise e, w).
Proof. intros Hrefused. unfold makedirs. by rewrite Hrefused. Qed.

(** C9. [program_device] takes the die from a device string of exactly
    three fields. With any other number of fields, two included, which the
    project builders accept, it raises: no script is written and the
    programming tool is not started.  The exception is the [ValueError] of
    unpacking the fields whenever the programmer's project directory could be
    made, which is tried first. *)
Theorem program_device_needs_three_fields (self : FlashProExpressProgrammer) (m : Machine)
    (build_dir project_name device_string : string) (w : World) :
  (length (Str.split "-" device_string) ≠ 3 →
     (∃ e w', program_device self m build_dir project_name device_string w = (Raise e, w')
              ∧ files w' = files w ∧ launched w' = launched w)
     ∧ (mkdir_refused (files w)
          (Path.lineage (Path.of_string (posixpath_join build_dir ["impl"; "programmer"])))
        = None →
        ∃ msg w', program_device self m build_dir project_name device_string w
                  = (Raise (ValueError msg), w')
                  ∧ files w' = files w ∧ launched w' = launched w))
  ∧ (length (Str.split "-" device_string) = 2 →
     ∃ die package, device_fields device_string = Ok (die, package, "STD"))
  ∧ (∀ die package speed, Str.split "-" device_string = [die; package; speed] →
     unpack_die device_string = Ok die).
Proof.
  split; [|split].
  - intros Hlen. destruct (unpack_die_wrong_count device_string Hlen) as [msg Hmsg].
    assert (Hmade : mkdir_refused (files w)
              (Path.lineage
                 (Path.of_string (posixpath_join build_dir ["impl"; "programmer"])))
            = None →
            ∃ w', program_device self m build_dir project_name device_string w
                  = (Raise (ValueError msg), w')
                  ∧ files w' = files w ∧ launched w' = launched w).
    { intros Hfree. eexists. unfold program_device, mbind, M_bind.
      rewrite (makedirs_made _ w Hfree), Hmsg. by cbn. }
    split; [|intros Hfree; exists msg; by apply Hmade].
    destruct (mkdir_refused (files w)
                (Path.lineage
                   (Path.of_string (posixpath_join build_dir ["impl"; "programmer"]))))
      as [e|] eqn:Hrefused.
    + exists e, w. unfold program_device, mbind, M_bind.
      by rewrite (makedirs_refused _ w e Hrefused).
    + destruct (Hmade eq_refl) as (w' & Hrun & Hfiles & Hlaunched). by exists (ValueError msg), w'.
  - intros Hlen. unfold device_fields.
    destruct (Str.split "-" device_string) as [|a [|b [|c l]]]; try done. by eauto.
  - intros die package speed Hsplit. unfold unpack_die. by rewrite Hsplit.
Qed.

Lemma program_device_needs_three_fields_witness :
  (∃ msg w', program_device Demo.programmer (mkMachine Written (Exited 0 id))
               "/home/user/build" "top" "mpf100t-fcg484" Demo.empty_world
             = (Raise (ValueError msg), w')
             ∧ files w' = files Demo.empty_world ∧ launched w' = launched Demo.empty_world)
  ∧ (∃ die package, device_fields "mpf100t-fcg484" = Ok (die, package, "STD"))
  ∧ unpack_die "mpf100t-fcg484-1" = Ok "mpf100t".
Proof.
  assert (Hn3 : length (Str.split "-" "mpf100t-fcg484") ≠ 3) by (vm_compute; lia).
  assert (Hfree : mkdir_refused (files Demo.empty_world)
                    (Path.lineage
                       (Path.of_string
                          (posixpath_join "/home/user/build" ["impl"; "programmer"])))
                  = None) by (vm_compute; reflexivity).
  split; [|split].
  - exact (proj2 (proj1 (program_device_needs_three_fields Demo.programmer
                    (mkMachine Written (Exited 0 id)) "/home/user/build" "top"
                    "mpf100t-fcg484" Demo.empty_world) Hn3) Hfree).
  - exact (proj1 (proj2 (program_device_needs_three_fields Demo.programmer
                    (mkMachine Written (Exited 0 id)) "/home/user/build" "top"
                    "mpf100t-fcg484" Demo.empty_world)) eq_refl).
  - exact (proj2 (proj2 (program_device_needs_three_fields Demo.programmer
                    (mkMachine Written (Exited 0 id)) "/home/user/build" "top"
                    "mpf100t-fcg484-1" Demo.empty_world))
             "mpf100t" "fcg484" "1" eq_refl).
Defined.

(** After a run in which the project directory was made and the script
    was written, the script is gone, whatever the programming tool did and
    however it ended. *)
Lemma script_removed_after_run (self : FlashProExpressProgrammer) (m : Machine)
    (build_dir project_name device_string die : string) (w : World) :
  mkdir_refused (files w)
    (Path.lineage (Path.of_string (posixpath_join build_dir ["impl"; "programmer"])))
  = None →
  unpack_die device_string = Ok die →
  script_write m = Written →
  files (snd (program_device self m build_dir project_name device_string w))
    !! Path.to_string (Path.joinpath (Path.of_string build_dir) "program_device.tcl")
  = None.
Proof.
  intros Hfree Hdie Hw. unfold program_device, mbind, M_bind.
  rewrite (makedirs_made _ w Hfree), Hdie.
  unfold write_script. rewrite Hw. unfold try_finally, run_fpexpress, remove_script.
  cbn [files dirs launched].
  destruct (tool m) as [rc leaves|err]; [destruct (decide (rc = 0%Z))|];
    cbn [files dirs launched]; case_decide as Hin; cbn [snd files];
    first [apply lookup_delete_eq | by apply eq_None_not_Some].
Qed.

(** C7 at the failing input: the script file is created, writing it fails
    for want of disk space, and [program_device] raises from the handler of
    the first [try]; the [finally] clause that removes the script belongs
    to the second [try], which is never entered, so the file stays. *)
Theorem script_left_after_failed_write :
  let m := mkMachine (WriteFailed "" "[Errno 28] No space left on device") (Exited 0 id) in
  let r := program_device Demo.programmer m "/home/user/build" "top" "mpf100t-fcg484-1"
             Demo.empty_world in
  fst r = Raise (IOError "Failed to create Tcl script: [Errno 28] No space left on device")
  ∧ files (snd r) !! "/home/user/build/program_device.tcl" = Some ""
  ∧ launched (snd r) = []
  ∧ files Demo.empty_world !! "/home/user/build/program_device.tcl" = None.
Proof. vm_compute. repeat split. Qed.

(** ** More on the IO constraint file *)

(** X1. A signal bound to a single pin adds exactly one line, under its
    plain name without an index and bound to that pin, in front of the lines
    of the entries that follow it; the constraint file begins with that line
    when the entry is the first. *)
Theorem single_pin_line (Pins_new : string → list string) (dev sig pin resname : string)
    (others : list Constraint) (scs : list SignalConstraint) (pdc : string) :
  Pins_new pin = [pin] →
  pins_have_identifiers others →
  Forall (entry_well_formed Pins_new) scs →
  io_entries_loop Pins_new dev ((sig, [pin], others, resname) :: scs) pdc
  = Ok (pdc +:+ pdc_line dev sig pin others
          +:+ concat_all (concat (map (entry_lines dev) scs)))
  ∧ (∀ {Period : Type} (tc : @Toolchain Period) (w : World),
       Str.lower (device (platform tc)) = dev →
       named_sc tc = (sig, [pin], others, resname) :: scs →
       build_io_constraints Pins_new tc w
       = (Ok (_build_name tc +:+ "_io.pdc", "PDC"),
          mkWorld
            (<[_build_name tc +:+ "_io.pdc" :=
                 (pdc_line dev sig pin others
                  +:+ concat_all (concat (map (entry_lines dev) scs)))
                 +:+ Str.join nl (additional_io_constraints tc)]> (files w))
            (dirs w) (launched w))).
Proof.
  intros Hpin Hothers Hscs.
  assert (Hentry : entry_well_formed Pins_new (sig, [pin], others, resname)).
  { split; [done|]. split; [|done]. by intros p ->%list_elem_of_singleton. }
  assert (Hloop : ∀ pdc',
            io_entries_loop Pins_new dev ((sig, [pin], others, resname) :: scs) pdc'
            = Ok (pdc' +:+ pdc_line dev sig pin others
                    +:+ concat_all (concat (map (entry_lines dev) scs)))).
  { intros pdc'.
    rewrite (io_entry_lines Pins_new dev (sig, [pin], others, resname)) by exact Hentry.
    rewrite (io_entries_lines Pins_new dev scs _ Hscs). cbn [entry_lines].
    rewrite decide_False by (simpl; lia).
    by rewrite concat_all_cons, app_empty_r, app_assoc_str. }
  split; [apply Hloop|].
  intros Period tc w Hdev Hsc. unfold build_io_constraints.
  rewrite Hdev, Hsc, Hloop. by rewrite app_empty_l.
Qed.

Lemma single_pin_line_witness :
  io_entries_loop Demo.Pins_new "m2s010-tq144"
    [("clk", ["A1"], [IOStandard "LVCMOS33"], "clk50"); ("rst", ["B2"], [], "cpu_reset")] ""
  = Ok ("" +:+ pdc_line "m2s010-tq144" "clk" "A1" [IOStandard "LVCMOS33"]
          +:+ concat_all (concat (map (entry_lines "m2s010-tq144")
                                    [("rst", ["B2"], [], "cpu_reset")])))
  ∧ pdc_line "m2s010-tq144" "clk" "A1" [IOStandard "LVCMOS33"]
    = "set_io {clk} -pinname A1 -iostd LVCMOS33 -fixed true" +:+ nl.
Proof.
  assert (Hothers : pins_have_identifiers [IOStandard "LVCMOS33"])
    by (repeat constructor; discriminate).
  assert (Hscs : Forall (entry_well_formed Demo.Pins_new) [("rst", ["B2"], [], "cpu_reset")]).
  { repeat constructor; try discriminate. }
  split; [|vm_compute; reflexivity].
  exact (proj1 (single_pin_line Demo.Pins_new "m2s010-tq144" "clk" "A1" "clk50"
                  [IOStandard "LVCMOS33"] [("rst", ["B2"], [], "cpu_reset")] "" eq_refl
                  Hothers Hscs)).
Defined.

(** X2. When every entry can be rendered, the IO constraint file holds the
    lines of the entries in declaration order, directly followed by the raw
    constraints joined with newlines; the hook returns the file name with
    the tag "PDC" and changes no other file. *)
Theorem io_constraints_file {Period : Type} (Pins_new : string → list string)
    (tc : @Toolchain Period) (w : World) :
  Forall (entry_well_formed Pins_new) (named_sc tc) →
  build_io_constraints Pins_new tc w
  = (Ok (_build_name tc +:+ "_io.pdc", "PDC"),
     mkWorld
       (<[_build_name tc +:+ "_io.pdc" :=
            concat_all
              (concat (map (entry_lines (Str.lower (device (platform tc)))) (named_sc tc)))
            +:+ Str.join nl (additional_io_constraints tc)]> (files w))
       (dirs w) (launched w)).
Proof.
  intros Hscs. unfold build_io_constraints.
  by rewrite (io_entries_lines Pins_new _ (named_sc tc) "" Hscs).
Qed.

Lemma io_constraints_file_witness :
  build_io_constraints Demo.Pins_new (Demo.toolchain "MPF100T-FCG484-1") Demo.empty_world
  = (Ok ("top" +:+ "_io.pdc", "PDC"),
     mkWorld
       (<["top" +:+ "_io.pdc" :=
            concat_all
              (concat (map (entry_lines (Str.lower "MPF100T-FCG484-1"))
                         [("serial_tx", ["A1"], [IOStandard "LVCMOS33"], "serial")]))
            +:+ Str.join nl []]> (files Demo.empty_world))
       (dirs Demo.empty_world) (launched Demo.empty_world)).
Proof.
  assert (Hscs : Forall (entry_well_formed Demo.Pins_new)
                   (named_sc (Demo.toolchain "MPF100T-FCG484-1"))).
  { repeat constructor; try discriminate. }
  exact (io_constraints_file Demo.Pins_new (Demo.toolchain "MPF100T-FCG484-1")
           Demo.empty_world Hscs).
Defined.

Lemma format_attrs_mpf_no_identifier (r : string) (cs : list Constraint) :
  Pins [] ∈ cs → format_attrs_mpf r cs = Raise IndexError.
Proof.
  revert r. induction cs as [|c cs IH]; intros r Hin; [by apply elem_of_nil in Hin|].
  apply elem_of_cons in Hin as [<-|Hin]; [done|].
  destruct c as [[|id0 ids]| | | | |]; simpl; auto.
Qed.

Lemma format_attrs_m2s_no_identifier (r : string) (cs : list Constraint) :
  Pins [] ∈ cs → format_attrs_m2s r cs = Raise IndexError.
Proof.
  revert r. induction cs as [|c cs IH]; intros r Hin; [by apply elem_of_nil in Hin|].
  apply elem_of_cons in Hin as [<-|Hin]; [done|].
  destruct c as [[|id0 ids]| | | | |]; simpl; auto.
Qed.

(** X3. An entry without pins, or with a pin object that holds no identifier
    among its attributes, makes the hook raise [IndexError]; the file is
    written only after all entries are rendered, so nothing is written. *)
Theorem io_constraints_unrenderable_entry {Period : Type} (Pins_new : string → list string)
    (tc : @Toolchain Period) (w : World) (before after : list SignalConstraint)
    (sig resname : string) (pins : list string) (others : list Constraint) :
  named_sc tc = before ++ (sig, pins, others, resname) :: after →
  Forall (entry_well_formed Pins_new) before →
  pins = [] ∨ (pins ≠ [] ∧ Pins [] ∈ others) →
  build_io_constraints Pins_new tc w = (Raise IndexError, w).
Proof.
  intros Hsc Hbefore Hbad. unfold build_io_constraints.
  rewrite Hsc, io_entries_loop_app, (io_entries_lines Pins_new _ before "" Hbefore).
  cbn [io_entries_loop].
  assert (Hfmt : ∀ n p, format_io_pdc Pins_new (Str.lower (device (platform tc))) n p others
                        = Raise IndexError ∨ pins = []).
  { intros n p. destruct Hbad as [->|[_ Hin]]; [by right|left].
    unfold format_io_pdc, _format_io_pdc_mpf, _format_io_pdc_m2s.
    destruct (Str.startswith _ "mpf").
    - by rewrite format_attrs_mpf_no_identifier by (by right).
    - by rewrite format_attrs_m2s_no_identifier by (by right). }
  destruct pins as [|p0 pins]; [by rewrite decide_False by (simpl; lia)|].
  case_decide.
  - cbn [io_vector_loop]. by destruct (Hfmt (sig +:+ "[" +:+ Str.of_nat 0 +:+ "]") p0) as [->|].
  - by destruct (Hfmt sig p0) as [->|].
Qed.

Lemma io_constraints_unrenderable_entry_witness :
  build_io_constraints Demo.Pins_new
    (mkToolchain None ["set_io extra"] [] [] (∅ : gmap N (N * option string)) ∅
       [("clk", ["A1"], [], "clk50"); ("led", [], [], "user_led")] "top"
       (Demo.board "mpf100t-fcg484-1"))
    Demo.empty_world
  = (Raise IndexError, Demo.empty_world).
Proof.
  assert (Hbefore : Forall (entry_well_formed Demo.Pins_new) [("clk", ["A1"], [], "clk50")]).
  { repeat constructor; try discriminate. }
  exact (io_constraints_unrenderable_entry Demo.Pins_new
           (mkToolchain None ["set_io extra"] [] [] (∅ : gmap N (N * option string)) ∅
              [("clk", ["A1"], [], "clk50"); ("led", [], [], "user_led")] "top"
              (Demo.board "mpf100t-fcg484-1"))
           Demo.empty_world
           [("clk", ["A1"], [], "clk50")] [] "led" "user_led" [] [] eq_refl Hbefore
           (or_introl eq_refl)).
Defined.

(** ** Attributes the formatter does not render *)

Lemma format_attrs_mpf_rendered (r : string) (cs : list Constraint) :
  format_attrs_mpf r cs
  = format_attrs_mpf r (filter (λ c, is_pins c || is_iostandard c || is_misc c) cs).
Proof.
  revert r. induction cs as [|c cs IH]; intros r; [done|].
  destruct c as [[|id0 ids]| | | | |];
    rewrite ?filter_cons_True, ?filter_cons_False by (simpl; auto); simpl; auto.
Qed.

Lemma format_attrs_m2s_rendered (r : string) (cs : list Constraint) :
  format_attrs_m2s r cs
  = format_attrs_m2s r (filter (λ c, is_pins c || is_iostandard c || is_misc c) cs).
Proof.
  revert r. induction cs as [|c cs IH]; intros r; [done|].
  destruct c as [[|id0 ids]| | | | |];
    rewrite ?filter_cons_True, ?filter_cons_False by (simpl; auto); simpl; auto.
Qed.

(** X4. Only pin, IO standard and pull attributes reach a constraint line: a
    drive strength, an inversion or a platform note in the attribute list
    changes neither the line nor whether formatting fails, for either
    family. *)
Theorem unrendered_attributes_ignored (Pins_new : string → list string)
    (dev signame pin : string) (others : list Constraint) :
  format_io_pdc Pins_new dev signame pin others
  = format_io_pdc Pins_new dev signame pin
      (filter (λ c, is_pins c || is_iostandard c || is_misc c) others).
Proof.
  unfold format_io_pdc, _format_io_pdc_mpf, _format_io_pdc_m2s.
  destruct (Str.startswith dev "mpf").
  - rewrite format_attrs_mpf_rendered. by rewrite filter_cons_True by done.
  - rewrite format_attrs_m2s_rendered. by rewrite filter_cons_True by done.
Qed.

(** ** Device strings *)

Lemma split_no_sep (sep : ascii) (s : string) :
  has_char sep s = false → Str.split sep s = [s].
Proof.
  induction s as [|c s IH]; simpl; [done|].
  intros [Hc Hs]%orb_false_iff. apply bool_decide_eq_false in Hc.
  rewrite decide_False by done. by rewrite IH.
Qed.

Lemma split_fields (sep : ascii) (s f : string) :
  f ∈ Str.split sep s → has_char sep f = false.
Proof.
  revert f. induction s as [|c s IH]; intros f; simpl.
  - by intros ->%list_elem_of_singleton.
  - case_decide as Hc.
    + intros [->|?]%elem_of_cons; [done|]. by apply IH.
    + pose proof (split_not_nil sep s) as Hne.
      destruct (Str.split sep s) as [|w ws]; [done|].
      intros [->|?]%elem_of_cons.
      * simpl. rewrite bool_decide_eq_false_2 by done. apply IH. by left.
      * apply IH. by right.
Qed.

Lemma join_cons (sep x y : string) (l : list string) :
  Str.join sep (x :: y :: l) = x +:+ sep +:+ Str.join sep (y :: l).
Proof. done. Qed.

Lemma join_split (sep : ascii) (s : string) :
  Str.join (String sep "") (Str.split sep s) = s.
Proof.
  induction s as [|c s IH]; [done|]. simpl. case_decide as Hc.
  - subst c. pose proof (split_not_nil sep s) as Hne.
    destruct (Str.split sep s) as [|w ws]; [done|].
    by rewrite join_cons, IH.
  - pose proof (split_not_nil sep s) as Hne.
    destruct (Str.split sep s) as [|w [|w' ws]]; [done|..].
    + simpl in *. by rewrite IH.
    + rewrite join_cons in *. by rewrite app_cons, IH.
Qed.

(** X5. Taking a device string apart inverts putting it together: fields
    without a dash, empty ones included, come back as they were, and a
    string of two fields gets the grade "STD".  Conversely, a device string
    that is accepted is its fields joined by dashes, and none of the fields
    holds a dash. *)
Theorem device_fields_round_trip (die package speed : string) :
  has_char "-" die = false → has_char "-" package = false → has_char "-" speed = false →
  device_fields (die +:+ "-" +:+ package +:+ "-" +:+ speed) = Ok (die, package, speed)
  ∧ device_fields (die +:+ "-" +:+ package) = Ok (die, package, "STD")
  ∧ (∀ dev die' package' speed', device_fields dev = Ok (die', package', speed') →
       (dev = die' +:+ "-" +:+ package' +:+ "-" +:+ speed'
        ∨ (dev = die' +:+ "-" +:+ package' ∧ speed' = "STD"))
       ∧ has_char "-" die' = false ∧ has_char "-" package' = false
       ∧ has_char "-" speed' = false).
Proof.
  intros Hd Hp Hs. split; [|split].
  - unfold device_fields.
    change ("-" +:+ package +:+ "-" +:+ speed) with (String "-" (package +:+ String "-" speed)).
    rewrite !split_app. by rewrite !split_no_sep by done.
  - unfold device_fields. change ("-" +:+ package) with (String "-" package).
    rewrite split_app. by rewrite !split_no_sep by done.
  - intros dev die' package' speed'. unfold device_fields.
    pose proof (join_split "-" dev) as Hjoin.
    pose proof (split_fields "-" dev) as Hfields.
    destruct (Str.split "-" dev) as [|a [|b [|c [|e l]]]]; try done.
    + intros [= <- <- <-]. split; [right; by rewrite <- Hjoin|].
      split; [apply Hfields; set_solver|]. split; [apply Hfields; set_solver|done].
    + intros [= <- <- <-]. split; [left; by rewrite <- Hjoin|].
      split; [apply Hfields; set_solver|]. split; apply Hfields; set_solver.
Qed.

Lemma device_fields_round_trip_witness :
  device_fields ("MPF300TS" +:+ "-" +:+ "FCG1152" +:+ "-" +:+ "1")
    = Ok ("MPF300TS", "FCG1152", "1")
  ∧ device_fields ("" +:+ "-" +:+ "") = Ok ("", "", "STD").
Proof.
  split.
  - exact (proj1 (device_fields_round_trip "MPF300TS" "FCG1152" "1" eq_refl eq_refl eq_refl)).
  - exact (proj1 (proj2 (device_fields_round_trip "" "" "" eq_refl eq_refl eq_refl))).
Defined.

Lemma upper_dash (speed : string) : Str.upper ("-" +:+ speed) ≠ "STD".
Proof. done. Qed.

(** X6. Formatting a speed grade twice gives the same as formatting it once:
    the result is a spelling of "STD" or starts with a dash, and such a grade
    is left alone. *)
Theorem formatted_speed_idempotent (speed : string) :
  formatted_speed (formatted_speed speed) = formatted_speed speed
  ∧ (Str.upper (formatted_speed speed) = "STD"
     ∨ Str.startswith (formatted_speed speed) "-" = true).
Proof.
  destruct (decide (Str.upper speed = "STD")) as [Hstd|Hstd].
  - assert (Hf : formatted_speed speed = speed)
      by (unfold formatted_speed; by rewrite decide_True).
    rewrite !Hf. by split; [|left].
  - destruct (Str.startswith speed "-") eqn:Hdash.
    + assert (Hf : formatted_speed speed = speed)
        by (unfold formatted_speed; rewrite decide_False by done; by rewrite Hdash).
      rewrite !Hf. by split; [|right].
    + assert (Hf : formatted_speed speed = "-" +:+ speed)
        by (unfold formatted_speed; rewrite decide_False by done; by rewrite Hdash).
      assert (Hstart : Str.startswith ("-" +:+ speed) "-" = true)
        by (rewrite app_cons; simpl; apply startswith_empty).
      rewrite !Hf. split; [|by right].
      unfold formatted_speed. rewrite decide_False by apply upper_dash. by rewrite Hstart.
Qed.

(** X7. The grade of an accepted device string never starts with a dash, so
    the project scripts get the grade itself when it spells "STD" in any
    letter case, and the grade with one dash in front otherwise. *)
Theorem device_speed_gets_one_dash (dev die package speed : string) :
  device_fields dev = Ok (die, package, speed) →
  Str.startswith speed "-" = false
  ∧ formatted_speed speed
    = if decide (Str.upper speed = "STD") then speed else "-" +:+ speed.
Proof.
  intros Hdev.
  assert (Hdash : Str.startswith speed "-" = false).
  { unfold device_fields in Hdev. pose proof (split_field_start "-" dev) as Hfields.
    destruct (Str.split "-" dev) as [|a [|b [|c [|e l]]]]; try done.
    - by injection Hdev as <- <- <-.
    - injection Hdev as <- <- <-. apply Hfields. set_solver. }
  split; [done|]. unfold formatted_speed. by rewrite Hdash.
Qed.

Lemma device_speed_gets_one_dash_witness :
  Str.startswith "std" "-" = false
  ∧ formatted_speed "std" = if decide (Str.upper "std" = "STD") then "std" else "-" +:+ "std".
Proof.
  exact (device_speed_gets_one_dash "m2gl025-vf256-std" "m2gl025" "vf256" "std" eq_refl).
Defined.

(** ** The generated files *)

Lemma string_app_inj (p s t : string) : p +:+ s = p +:+ t → s = t.
Proof.
  induction p as [|c p IH]; [by rewrite !app_empty_l|].
  rewrite !app_cons. intros [= H]. by apply IH.
Qed.

Lemma string_app_length (s t : string) :
  String.length (s +:+ t) = String.length s + String.length t.
Proof.
  induction s as [|c s IH]; [by rewrite app_empty_l|].
  rewrite app_cons. simpl. by rewrite IH.
Qed.

Lemma generated_file_inj {Period : Type} (sys_platform : string) (tc : @Toolchain Period)
    (h1 h2 : hook) :
  generated_file sys_platform tc h1 = generated_file sys_platform tc h2 → h1 = h2.
Proof.
  assert (Hlen : ∀ ext other, String.length ext = 3 ∨ String.length ext = 4 →
            String.length other = 4 ∨ String.length other = 7 →
            "build_" +:+ _build_name tc +:+ ext ≠ _build_name tc +:+ other).
  { intros ext other Hext Hother Heq. apply (f_equal String.length) in Heq.
    rewrite !string_app_length in Heq. simpl in Heq. lia. }
  assert (Hext : ∀ ext : string, ext = ".bat" ∨ ext = ".sh" →
            String.length ext = 3 ∨ String.length ext = 4).
  { intros ext [->| ->]; simpl; lia. }
  assert (Hscript : ∀ other, String.length other = 4 ∨ String.length other = 7 →
            generated_file sys_platform tc Script ≠ _build_name tc +:+ other).
  { intros other Hother. unfold generated_file. apply Hlen; [|done].
    apply Hext. case_decide; auto. }
  destruct h1, h2; try done; intros Heq;
    first [ exfalso; refine (Hscript _ _ Heq); simpl; lia
          | exfalso; symmetry in Heq; refine (Hscript _ _ Heq); simpl; lia
          | cbn [generated_file] in Heq; by apply string_app_inj in Heq ].
Qed.

Section Generation.

Context {Period : Type}.
Variable str_period : Period → string.
Variable get_name : Signal → string.
Variable str_signal : Signal → string.
Variable Pins_new : string → list string.
Variable sys_platform : string.

Local Abbreviation hook1 := (run_hook str_period get_name str_signal Pins_new sys_platform).
Local Abbreviation hooksG := (run_hooks str_period get_name str_signal Pins_new sys_platform).

Lemma run_hook_frame (tc : @Toolchain Period) (h : hook) (w : World) (f : string) :
  dirs (hook1 tc h w).2 = dirs w
  ∧ launched (hook1 tc h w).2 = launched w
  ∧ (f ≠ generated_file sys_platform tc h →
     files (hook1 tc h w).2 !! f = files w !! f).
Proof.
  destruct h; cbn [run_hook generated_file]; unfold mbind, M_bind.
  - unfold build_io_constraints. destruct (io_entries_loop _ _ _ _); [|done].
    repeat split. intros Hf. simpl. by rewrite lookup_insert_ne.
  - unfold build_placement_constraints. repeat split. intros Hf. simpl.
    by rewrite lookup_insert_ne.
  - unfold build_timing_constraints. repeat split. intros Hf. simpl.
    by rewrite lookup_insert_ne.
  - unfold build_project, build_project_mpf, build_project_m2s.
    destruct (Str.startswith _ "mpf"); [|destruct (_ || _)];
      [destruct (device_fields _) as [[[die package] speed]|e]..|]; try done;
      repeat split; intros Hf; simpl; by rewrite lookup_insert_ne.
  - unfold build_script. case_decide; repeat split; intros Hf; simpl;
      by rewrite lookup_insert_ne.
Qed.

(** X8. The generation hooks, run in any order and whether or not one of them
    raises, start no process and create or remove no directory, and a file
    that is not the output of one of the hooks run keeps its content. *)
Theorem hooks_touch_only_their_files (tc : @Toolchain Period) (hs : list hook) (w : World)
    (f : string) :
  f ∉ map (generated_file sys_platform tc) hs →
  dirs (hooksG tc hs w).2 = dirs w
  ∧ launched (hooksG tc hs w).2 = launched w
  ∧ files (hooksG tc hs w).2 !! f = files w !! f.
Proof.
  revert w. induction hs as [|h hs IH]; intros w Hf; [done|].
  cbn [map] in Hf. apply not_elem_of_cons in Hf as [Hfh Hfhs].
  destruct (run_hook_frame tc h w f) as (Hd & Hl & Hfiles).
  cbn [run_hooks]. unfold mbind, M_bind.
  destruct (hook1 tc h w) as [[[]|e] w1]; simpl in *.
  - destruct (IH w1 Hfhs) as (Hd' & Hl' & Hfiles').
    by rewrite Hd', Hl', Hfiles', Hd, Hl, Hfiles.
  - by rewrite Hd, Hl, Hfiles.
Qed.

(** X9. No hook overwrites the output of another: the file a hook wrote is
    unchanged by any run of the other hooks. *)
Theorem hooks_keep_other_outputs (tc : @Toolchain Period) (h : hook) (hs : list hook)
    (w : World) :
  h ∉ hs →
  files (hooksG tc hs w).2 !! generated_file sys_platform tc h
  = files w !! generated_file sys_platform tc h.
Proof.
  intros Hh. revert w. induction hs as [|h' hs IH]; intros w; [done|].
  apply not_elem_of_cons in Hh as [Hne Hhs].
  destruct (run_hook_frame tc h' w (generated_file sys_platform tc h)) as (_ & _ & Hfiles).
  cbn [run_hooks]. unfold mbind, M_bind.
  destruct (hook1 tc h' w) as [[[]|e] w1]; simpl in *.
  - rewrite (IH Hhs w1). apply Hfiles. intros Heq. by apply generated_file_inj in Heq.
  - apply Hfiles. intros Heq. by apply generated_file_inj in Heq.
Qed.

(** X10. The project script imports the three constraint files under the names
    the constraint hooks return, and the launcher names the script the
    project hook returns, after the header of the platform. *)
Theorem project_imports_generated_files (tc : @Toolchain Period)
    (w_io w_fp w_sdc w_tcl w_sh w_io' w_fp' w_sdc' w_tcl' w_sh' : World)
    (f_io t_io f_fp t_fp f_sdc t_sdc script launcher : string) :
  build_io_constraints Pins_new tc w_io = (Ok (f_io, t_io), w_io') →
  build_placement_constraints tc w_fp = (Ok (f_fp, t_fp), w_fp') →
  build_timing_constraints str_period get_name str_signal tc w_sdc
    = (Ok (f_sdc, t_sdc), w_sdc') →
  build_project tc w_tcl = (Ok script, w_tcl') →
  build_script sys_platform tc w_sh = (Ok launcher, w_sh') →
  (∃ tcl, files w_tcl' !! script = Some (Str.join nl tcl)
     ∧ "import_files -io_pdc " +:+ tcl_name f_io ∈ tcl
     ∧ "import_files -fp_pdc " +:+ tcl_name f_fp ∈ tcl
     ∧ "import_files -convert_EDN_to_HDL 0 -sdc " +:+ tcl_name f_sdc ∈ tcl)
  ∧ (∃ header, files w_sh' !! launcher
       = Some (header +:+ "libero script:" +:+ script +:+ nl)
     ∧ header = if decide (sys_platform = "win32" ∨ sys_platform = "cygwin")
                then "@echo off" +:+ nl +:+ "REM Autogenerated by LiteX" +:+ nl +:+ nl
                else "# Autogenerated by LiteX" +:+ nl).
Proof.
  intros Hio Hfp Hsdc Htcl Hsh.
  assert (f_io = _build_name tc +:+ "_io.pdc") as ->.
  { unfold build_io_constraints in Hio. destruct (io_entries_loop _ _ _ _); [|done].
    by injection Hio as <- _ _. }
  assert (f_fp = _build_name tc +:+ "_fp.pdc") as ->.
  { unfold build_placement_constraints in Hfp. by injection Hfp as <- _ _. }
  assert (f_sdc = _build_name tc +:+ ".sdc") as ->.
  { unfold build_timing_constraints in Hsdc. by injection Hsdc as <- _ _. }
  assert (Himp : ∀ first rest,
            "import_files -io_pdc " +:+ tcl_name (_build_name tc +:+ "_io.pdc")
              ∈ first ++ import_sources (sources (platform tc))
                  ++ import_constraints (_build_name tc) ++ rest
            ∧ "import_files -fp_pdc " +:+ tcl_name (_build_name tc +:+ "_fp.pdc")
              ∈ first ++ import_sources (sources (platform tc))
                  ++ import_constraints (_build_name tc) ++ rest
            ∧ "import_files -convert_EDN_to_HDL 0 -sdc "
                +:+ tcl_name (_build_name tc +:+ ".sdc")
              ∈ first ++ import_sources (sources (platform tc))
                  ++ import_constraints (_build_name tc) ++ rest).
  { intros first rest. unfold import_constraints.
    repeat split; apply elem_of_app; right; apply elem_of_app; right;
      apply elem_of_app; left; set_solver. }
  split.
  - unfold build_project, build_project_mpf, build_project_m2s in Htcl.
    destruct (Str.startswith _ "mpf"); [|destruct (_ || _)];
      [destruct (device_fields _) as [[[die package] speed]|e]..|]; try done.
    + injection Htcl as <- <-.
      exists (tcl_mpf (_build_name tc) die package (formatted_speed speed)
                (sources (platform tc))).
      split; [cbn [files]; by rewrite lookup_insert_eq|].
      unfold tcl_mpf. apply Himp.
    + injection Htcl as <- <-.
      eexists (tcl_m2s _ (_build_name tc) die package (formatted_speed speed)
                 (sources (platform tc))).
      split; [cbn [files]; by rewrite lookup_insert_eq|].
      unfold tcl_m2s. apply Himp.
  - assert (script = _build_name tc +:+ ".tcl") as ->.
    { unfold build_project, build_project_mpf, build_project_m2s in Htcl.
      destruct (Str.startswith _ "mpf"); [|destruct (_ || _)];
        [destruct (device_fields _) as [[[die package] speed]|e]..|]; try done;
        by injection Htcl as <- _. }
    unfold build_script in Hsh. eexists. split; [|done].
    case_decide; injection Hsh as <- <-; cbn [files]; rewrite lookup_insert_eq;
      by rewrite ?app_assoc_str.
Qed.

End Generation.

Lemma hooks_touch_only_their_files_witness :
  dirs (Demo.hooks_for "mpf100t-fcg484-1" [IoConstraints; Project; Script]).2
    = dirs Demo.empty_world
  ∧ launched (Demo.hooks_for "mpf100t-fcg484-1" [IoConstraints; Project; Script]).2
    = launched Demo.empty_world
  ∧ files (Demo.hooks_for "mpf100t-fcg484-1" [IoConstraints; Project; Script]).2 !! "top.sdc"
    = files Demo.empty_world !! "top.sdc".
Proof.
  assert (Hf : "top.sdc" ∉ map (generated_file "linux" (Demo.toolchain "mpf100t-fcg484-1"))
                           [IoConstraints; Project; Script]).
  { vm_compute. intros Hin. repeat (apply elem_of_cons in Hin as [Hin|Hin]; [done|]).
    by apply elem_of_nil in Hin. }
  exact (hooks_touch_only_their_files Demo.str_period Demo.get_name Demo.get_name
           Demo.Pins_new "linux" (Demo.toolchain "mpf100t-fcg484-1")
           [IoConstraints; Project; Script] Demo.empty_world "top.sdc" Hf).
Defined.

Lemma hooks_keep_other_outputs_witness :
  files (Demo.hooks_for "mpf100t-fcg484-1" [PlacementConstraints; Project; Script]).2
    !! generated_file "linux" (Demo.toolchain "mpf100t-fcg484-1") IoConstraints
  = files Demo.empty_world
      !! generated_file "linux" (Demo.toolchain "mpf100t-fcg484-1") IoConstraints.
Proof.
  assert (Hh : IoConstraints ∉ [PlacementConstraints; Project; Script]).
  { intros Hin. repeat (apply elem_of_cons in Hin as [Hin|Hin]; [done|]).
    by apply elem_of_nil in Hin. }
  exact (hooks_keep_other_outputs Demo.str_period Demo.get_name Demo.get_name
           Demo.Pins_new "linux" (Demo.toolchain "mpf100t-fcg484-1")
           IoConstraints [PlacementConstraints; Project; Script] Demo.empty_world Hh).
Defined.

Lemma project_imports_generated_files_witness :
  (∃ tcl, files (build_project (Demo.toolchain "m2s010-tq144-1") Demo.empty_world).2 !! "top.tcl"
          = Some (Str.join nl tcl)
     ∧ "import_files -io_pdc " +:+ tcl_name "top_io.pdc" ∈ tcl
     ∧ "import_files -fp_pdc " +:+ tcl_name "top_fp.pdc" ∈ tcl
     ∧ "import_files -convert_EDN_to_HDL 0 -sdc " +:+ tcl_name "top.sdc" ∈ tcl)
  ∧ (∃ header, files (build_script "win32" (Demo.toolchain "m2s010-tq144-1")
                        Demo.empty_world).2 !! "build_top.bat"
       = Some (header +:+ "libero script:" +:+ "top.tcl" +:+ nl)
     ∧ header = if decide ("win32" = "win32" ∨ "win32" = "cygwin")
                then "@echo off" +:+ nl +:+ "REM Autogenerated by LiteX" +:+ nl +:+ nl
                else "# Autogenerated by LiteX" +:+ nl).
Proof.
  pose (tc := Demo.toolchain "m2s010-tq144-1").
  assert (Hio : build_io_constraints Demo.Pins_new tc Demo.empty_world
                = (Ok ("top_io.pdc", "PDC"),
                   (build_io_constraints Demo.Pins_new tc Demo.empty_world).2))
    by (vm_compute; reflexivity).
  assert (Hfp : build_placement_constraints tc Demo.empty_world
                = (Ok ("top_fp.pdc", "PDC"),
                   (build_placement_constraints tc Demo.empty_world).2))
    by (vm_compute; reflexivity).
  assert (Hsdc : build_timing_constraints Demo.str_period Demo.get_name Demo.get_name tc
                   Demo.empty_world
                = (Ok ("top.sdc", "SDC"),
                   (build_timing_constraints Demo.str_period Demo.get_name Demo.get_name tc
                      Demo.empty_world).2))
    by (vm_compute; reflexivity).
  assert (Htcl : build_project tc Demo.empty_world
                = (Ok "top.tcl", (build_project tc Demo.empty_world).2))
    by (vm_compute; reflexivity).
  assert (Hsh : build_script "win32" tc Demo.empty_world
                = (Ok "build_top.bat", (build_script "win32" tc Demo.empty_world).2))
    by (vm_compute; reflexivity).
  exact (project_imports_generated_files Demo.str_period Demo.get_name Demo.get_name
           Demo.Pins_new "win32" tc
           Demo.empty_world Demo.empty_world Demo.empty_world Demo.empty_world
           Demo.empty_world _ _ _ _ _ "top_io.pdc" "PDC" "top_fp.pdc" "PDC" "top.sdc" "SDC"
           "top.tcl" "build_top.bat" Hio Hfp Hsdc Htcl Hsh).
Defined.

(** ** The timing constraint file *)

Lemma clock_key_le_trans {Period : Type} : Transitive (@clock_key_le Period).
Proof. intros x y z. unfold clock_key_le. lia. Qed.
Lemma clock_key_le_total {Period : Type} : Total (@clock_key_le Period).
Proof. intros x y. unfold clock_key_le. lia. Qed.
Lemma false_path_key_le_trans : Transitive false_path_key_le.
Proof. intros x y z. unfold false_path_key_le. lia. Qed.
Lemma false_path_key_le_total : Total false_path_key_le.
Proof. intros x y. unfold false_path_key_le. lia. Qed.

Lemma StronglySorted_strict {A B : Type} (R R' : relation A) (key : A → B) (l : list A) :
  (∀ x y, R x y → key x ≠ key y → R' x y) →
  NoDup (map key l) → StronglySorted R l → StronglySorted R' l.
Proof.
  intros Hstrict Hnd Hsorted. induction Hsorted as [|x l Hl IH Hx]; [constructor|].
  cbn [map] in Hnd. apply NoDup_cons in Hnd as [Hx' Hnd].
  constructor; [by apply IH|].
  apply Forall_forall. intros y Hy. apply Hstrict.
  - by apply (proj1 (Forall_forall _ _) Hx).
  - intros Heq. apply Hx'. rewrite Heq. by apply list_elem_of_fmap_2.
Qed.

Section Timing.

Context {Period : Type}.
Variable str_period : Period → string.
Variable get_name : Signal → string.
Variable str_signal : Signal → string.

(** X11. The timing file holds one [create_clock] statement for each registered
    clock, in strictly increasing order of the signals' sequence numbers, then
    one [set_clock_groups] statement for each false path, in strictly
    increasing order of the pair (source number, destination number), then the
    raw constraints in their order; the statements are joined by newlines. *)
Theorem timing_constraints_sorted (tc : @Toolchain Period) (w : World) :
  ∃ (cs : list (Signal * (Period * option string))) (fps : list (Signal * Signal)),
    build_timing_constraints str_period get_name str_signal tc w
    = (Ok (_build_name tc +:+ ".sdc", "SDC"),
       mkWorld
         (<[_build_name tc +:+ ".sdc" :=
              Str.join nl (map (create_clock str_period get_name) cs
                           ++ map (set_clock_groups str_signal) fps
                           ++ additional_timing_constraints tc)]> (files w))
         (dirs w) (launched w))
    ∧ cs ≡ₚ map_to_list (clocks tc)
    ∧ fps ≡ₚ elements (false_paths tc)
    ∧ StronglySorted (λ x y, (duid x.1 < duid y.1)%N) cs
    ∧ StronglySorted
        (λ x y, (duid x.1 < duid y.1)%N ∨ (duid x.1 = duid y.1 ∧ (duid x.2 < duid y.2)%N))
        fps
    ∧ length (map (create_clock str_period get_name) cs
              ++ map (set_clock_groups str_signal) fps
              ++ additional_timing_constraints tc)
      = size (clocks tc) + size (false_paths tc) + length (additional_timing_constraints tc).
Proof.
  exists (merge_sort clock_key_le (map_to_list (clocks tc))),
         (merge_sort false_path_key_le (elements (false_paths tc))).
  split; [done|].
  split; [apply merge_sort_Permutation|].
  split; [apply merge_sort_Permutation|].
  split; [|split].
  - apply (StronglySorted_strict clock_key_le _ fst).
    + intros x y. unfold clock_key_le, duid. lia.
    + rewrite merge_sort_Permutation. apply NoDup_fst_map_to_list.
    + apply (@StronglySorted_merge_sort _ _ _ clock_key_le_trans clock_key_le_total).
  - apply (StronglySorted_strict false_path_key_le _ id).
    + intros [x1 x2] [y1 y2]. unfold false_path_key_le, duid. simpl.
      intros Hle Hne. destruct (decide (x1 = y1)) as [->|]; [|lia].
      assert (x2 ≠ y2) by congruence. lia.
    + rewrite list_fmap_id, merge_sort_Permutation. apply NoDup_elements.
    + apply (@StronglySorted_merge_sort _ _ _ false_path_key_le_trans
               false_path_key_le_total).
  - rewrite !length_app, !length_map, !merge_sort_Permutation.
    rewrite length_map_to_list.
    change (size (false_paths tc)) with (length (elements (false_paths tc))). lia.
Qed.

End Timing.

(** ** Runs of false-path registrations *)

Lemma add_false_path_stored {Period : Type} (tc : @Toolchain Period) (p : Platform)
    (a b : Signal) (q : Signal * Signal) :
  q ∈ false_paths (add_false_path_constraint tc p a b)
  ↔ q ∈ false_paths tc ∨ (q = (a, b) ∧ (b, a) ∉ false_paths tc).
Proof.
  unfold add_false_path_constraint. case_decide as Hba; simpl.
  - rewrite elem_of_union, elem_of_singleton. split.
    + intros [->|Hq]; [by right|by left].
    + intros [Hq|[-> _]]; [by right|by left].
  - split; [by left|]. intros [Hq|[_ Hn]]; [done|]. by destruct Hn.
Qed.

Lemma add_false_path_size {Period : Type} (tc : @Toolchain Period) (p : Platform)
    (a b : Signal) :
  size (false_paths (add_false_path_constraint tc p a b)) ≤ S (size (false_paths tc)).
Proof.
  unfold add_false_path_constraint. case_decide as Hba; simpl; [|lia].
  rewrite size_union_alt, size_singleton.
  assert (size (false_paths tc ∖ {[(a, b)]}) ≤ size (false_paths tc)); [|lia].
  apply subseteq_size. apply subseteq_difference_l. done.
Qed.

(** X12. After any run of registrations on a set that holds no pair in both
    directions, the set still holds none in both directions; nothing stored
    before is lost; every pair of the run is stored in the direction given or
    in the reverse one; every stored pair was stored before or is a pair of the
    run, in the direction given; and the set has grown by at most the number
    of registrations. *)
Theorem false_paths_after_registrations {Period : Type} (tc : @Toolchain Period)
    (p : Platform) (pairs : list (Signal * Signal)) :
  one_direction (false_paths tc) →
  let fp' := false_paths (register_false_paths tc p pairs) in
  one_direction fp'
  ∧ false_paths tc ⊆ fp'
  ∧ (∀ a b, (a, b) ∈ pairs → (a, b) ∈ fp' ∨ (b, a) ∈ fp')
  ∧ (∀ q, q ∈ fp' → q ∈ false_paths tc ∨ q ∈ pairs)
  ∧ size fp' ≤ size (false_paths tc) + length pairs.
Proof.
  revert tc. induction pairs as [|[a b] pairs IH]; intros tc Hone.
  - simpl. repeat split; [done|done| |by left|lia].
    intros a b Hin. by apply elem_of_nil in Hin.
  - cbn [register_false_paths foldl fst snd]. fold (register_false_paths
      (add_false_path_constraint tc p a b) p pairs).
    destruct (IH (add_false_path_constraint tc p a b)
                (add_false_path_one_direction tc p a b Hone))
      as (Hone' & Hsub & Hreg & Hstored & Hsize).
    pose proof (add_false_path_size tc p a b) as Hsz.
    simpl. repeat split.
    + done.
    + intros q Hq. apply Hsub. apply add_false_path_stored. by left.
    + intros a' b' [[= -> ->]|Hin]%elem_of_cons; [|by apply Hreg].
      destruct (decide ((b, a) ∈ false_paths tc)) as [Hba|Hba].
      * right. apply Hsub, add_false_path_stored. by left.
      * left. apply Hsub, add_false_path_stored. by right.
    + intros q Hq. destruct (Hstored q Hq) as [Hq'|Hq']; [|right; by right].
      apply add_false_path_stored in Hq' as [?|[-> _]]; [by left|right; by left].
    + lia.
Qed.

Lemma false_paths_after_registrations_witness :
  one_direction
    (false_paths (register_false_paths (Demo.toolchain "mpf100t-fcg484-1")
                    (Demo.board "mpf100t-fcg484-1") [(1, 2); (2, 1); (3, 3)]%N))
  ∧ size (false_paths (register_false_paths (Demo.toolchain "mpf100t-fcg484-1")
                         (Demo.board "mpf100t-fcg484-1") [(1, 2); (2, 1); (3, 3)]%N))
    ≤ size (false_paths (Demo.toolchain "mpf100t-fcg484-1"))
      + length [(1, 2); (2, 1); (3, 3)]%N.
Proof.
  pose proof (false_paths_after_registrations (Demo.toolchain "mpf100t-fcg484-1")
                (Demo.board "mpf100t-fcg484-1") [(1, 2); (2, 1); (3, 3)]%N
                one_direction_empty) as (Hone & _ & _ & _ & Hsize).
  exact (conj Hone Hsize).
Defined.

(** X13. Registering two false paths in either order stores the same pairs,
    unless one is the reverse of the other. *)
Theorem false_path_registrations_commute {Period : Type} (tc : @Toolchain Period)
    (p : Platform) (a b c d : Signal) :
  (c, d) ≠ (b, a) →
  false_paths (register_false_paths tc p [(a, b); (c, d)])
  = false_paths (register_false_paths tc p [(c, d); (a, b)]).
Proof.
  intros Hrev. cbn [register_false_paths foldl fst snd].
  assert (Hrev' : (a, b) ≠ (d, c)) by congruence.
  apply set_eq. intros q. rewrite !add_false_path_stored. split.
  - intros [[Hq|[-> Hba]]|[-> Hdc]].
    + left. by left.
    + right. split; [done|]. intros [Hin|[? _]]; [done|congruence].
    + left. right. split; [done|]. intros Hin. apply Hdc. by left.
  - intros [[Hq|[-> Hdc]]|[-> Hba]].
    + left. by left.
    + right. split; [done|]. intros [Hin|[? _]]; [done|congruence].
    + left. right. split; [done|]. intros Hin. apply Hba. by left.
Qed.

Lemma false_path_registrations_commute_witness :
  false_paths (register_false_paths (Demo.toolchain "mpf100t-fcg484-1")
                 (Demo.board "mpf100t-fcg484-1") [(1, 2); (2, 3)]%N)
  = false_paths (register_false_paths (Demo.toolchain "mpf100t-fcg484-1")
                   (Demo.board "mpf100t-fcg484-1") [(2, 3); (1, 2)]%N).
Proof.
  assert (Hrev : (2, 3)%N ≠ (2, 1)%N) by discriminate.
  exact (false_path_registrations_commute (Demo.toolchain "mpf100t-fcg484-1")
           (Demo.board "mpf100t-fcg484-1") 1%N 2%N 2%N 3%N Hrev).
Defined.

(** X14. The platform method marks both end points with "keep", whether or not
    the path is then stored, using the [p] half of an end point that has one;
    attributes already set stay, signals other than the two end points keep
    their attributes, and the tool chain is the one the tool chain method
    returns for the two unwrapped end points. *)
Theorem platform_false_path_keeps_signals {Period : Type} (tc : @Toolchain Period)
    (p : Platform) (attrs : gmap Signal (gset string)) (from_ to : endpoint) :
  let r := Platform_add_false_path_constraint tc p attrs from_ to in
  "keep" ∈ default ∅ (r.2 !! endpoint_signal from_)
  ∧ "keep" ∈ default ∅ (r.2 !! endpoint_signal to)
  ∧ (∀ s, default ∅ (attrs !! s) ⊆ default ∅ (r.2 !! s))
  ∧ (∀ s, s ≠ endpoint_signal from_ → s ≠ endpoint_signal to → r.2 !! s = attrs !! s)
  ∧ r.1 = add_false_path_constraint tc p (endpoint_signal from_) (endpoint_signal to).
Proof.
  unfold Platform_add_false_path_constraint, attr_add. cbn [fst snd].
  set (f := endpoint_signal from_). set (t := endpoint_signal to).
  repeat split.
  - destruct (decide (f = t)) as [->|Hne].
    + rewrite lookup_insert_eq. simpl. set_solver.
    + rewrite lookup_insert_ne, lookup_insert_eq by done. simpl. set_solver.
  - rewrite lookup_insert_eq. simpl. set_solver.
  - intros s. destruct (decide (s = t)) as [->|Hst].
    + rewrite lookup_insert_eq. simpl.
      destruct (decide (f = t)) as [->|Hne].
      * rewrite lookup_insert_eq. simpl. set_solver.
      * rewrite lookup_insert_ne by done. set_solver.
    + rewrite lookup_insert_ne by done.
      destruct (decide (s = f)) as [->|Hsf].
      * rewrite lookup_insert_eq. simpl. set_solver.
      * by rewrite lookup_insert_ne by done.
  - intros s Hsf Hst. by rewrite !lookup_insert_ne by done.
Qed.

Lemma platform_false_path_keeps_signals_witness :
  (Platform_add_false_path_constraint (Demo.toolchain "mpf100t-fcg484-1")
     (Demo.board "mpf100t-fcg484-1") ∅ (WithP 4 5) (Plain 6)).2 !! 5%N = (∅ : gmap N (gset string)) !! 5%N.
Proof.
  pose proof (platform_false_path_keeps_signals (Demo.toolchain "mpf100t-fcg484-1")
                (Demo.board "mpf100t-fcg484-1") ∅ (WithP 4 5) (Plain 6))
    as (_ & _ & _ & Hother & _).
  assert (H4 : 5%N ≠ endpoint_signal (WithP 4 5)) by discriminate.
  assert (H6 : 5%N ≠ endpoint_signal (Plain 6)) by discriminate.
  exact (Hother 5%N H4 H6).
Defined.

(** ** Running the build script *)

Lemma inside_self (dir : string) : inside dir dir = true.
Proof. unfold inside. by rewrite bool_decide_eq_true_2. Qed.

Lemma rmtree_directory (path : string) (w : World) :
  path ∈ dirs w →
  ∃ w', rmtree path w = (Ok tt, w')
    ∧ launched w' = launched w
    ∧ (∀ f, inside path f = true → files w' !! f = None ∧ f ∉ dirs w')
    ∧ (∀ f, inside path f = false →
         files w' !! f = files w !! f ∧ (f ∈ dirs w' ↔ f ∈ dirs w)).
Proof.
  intros Hdir. unfold rmtree. rewrite decide_True by done.
  eexists. split; [done|]. split; [done|]. cbn [files dirs]. split.
  - intros f Hin. split.
    + apply map_lookup_filter_None. right. intros x _. simpl. by rewrite Hin.
    + rewrite elem_of_filter. intros [Hout _]. by rewrite Hin in Hout.
  - intros f Hout. split.
    + destruct (files w !! f) as [x|] eqn:Hf.
      * by apply map_lookup_filter_Some.
      * apply map_lookup_filter_None. by left.
    + rewrite elem_of_filter. by split; [intros [_ ?]|].
Qed.

(** X15. Without the tool chain on the path the script runner raises [OSError]
    and starts nothing, but an "impl" directory left by an earlier run is
    gone by then, with everything below it; paths outside it are as they
    were. *)
Theorem run_script_without_libero (sys_platform : string) (host : Host) (script : string)
    (w : World) :
  "impl" ∈ dirs w →
  which_libero host = None →
  ∃ w', run_script sys_platform host script w
        = (Raise (OSError ("Unable to find Libero SoC toolchain." +:+ nl)), w')
    ∧ launched w' = launched w
    ∧ ("impl" ∉ dirs w')
    ∧ (∀ f, inside "impl" f = true → files w' !! f = None ∧ f ∉ dirs w')
    ∧ (∀ f, inside "impl" f = false →
         files w' !! f = files w !! f ∧ (f ∈ dirs w' ↔ f ∈ dirs w)).
Proof.
  intros Hdir Hwhich.
  destruct (rmtree_directory "impl" w Hdir) as (w' & Hrm & Hl & Hin & Hout).
  exists w'. unfold run_script, mbind, M_bind, path_exists.
  rewrite bool_decide_eq_true_2 by done. cbn [orb]. rewrite Hrm, Hwhich.
  split; [done|]. split; [done|]. split; [|done].
  apply (Hin "impl"), inside_self.
Qed.

Lemma run_script_without_libero_witness :
  ∃ w', run_script "linux" (mkHost None 0 id id) "build_top.sh"
          (mkWorld {["impl/top.prjx" := "project"; "top.v" := "module"]} {["impl"]} [])
        = (Raise (OSError ("Unable to find Libero SoC toolchain." +:+ nl)), w')
    ∧ files w' !! "impl/top.prjx" = None
    ∧ files w' !! "top.v" = Some "module".
Proof.
  assert (Hdir : "impl" ∈ dirs (mkWorld {["impl/top.prjx" := "project"; "top.v" := "module"]}
                                  {["impl"]} [])).
  { simpl. by apply elem_of_singleton. }
  destruct (run_script_without_libero "linux" (mkHost None 0 id id) "build_top.sh" _ Hdir eq_refl)
    as (w' & Hrun & _ & _ & Hin & Hout).
  exists w'. split; [exact Hrun|]. split.
  - exact (proj1 (Hin "impl/top.prjx" eq_refl)).
  - exact (proj1 (Hout "top.v" eq_refl)).
Defined.

(** X16. A regular file named "impl" stops the script runner with
    [NotADirectoryError] before it looks for the tool chain: nothing is
    removed and nothing is started. *)
Theorem run_script_impl_is_a_file (sys_platform : string) (host : Host) (script : string)
    (w : World) :
  "impl" ∉ dirs w →
  is_Some (files w !! "impl") →
  run_script sys_platform host script w = (Raise (NotADirectoryError "impl"), w).
Proof.
  intros Hdir Hfile. unfold run_script, mbind, M_bind, path_exists, rmtree.
  rewrite bool_decide_eq_false_2 by done. rewrite bool_decide_eq_true_2 by done.
  cbn [orb]. by rewrite decide_False, decide_True by done.
Qed.

Lemma run_script_impl_is_a_file_witness :
  run_script "linux" (mkHost (Some "/opt/libero/bin/libero") 0 id id) "build_top.sh"
    (mkWorld {["impl" := "notes"]} ∅ [])
  = (Raise (NotADirectoryError "impl"), mkWorld {["impl" := "notes"]} ∅ []).
Proof.
  assert (Hdir : "impl" ∉ dirs (mkWorld {["impl" := "notes"]} ∅ [])).
  { simpl. apply not_elem_of_empty. }
  assert (Hfile : is_Some (files (mkWorld {["impl" := "notes"]} ∅ []) !! "impl")).
  { simpl. rewrite lookup_singleton_eq. by eexists. }
  exact (run_script_impl_is_a_file "linux" (mkHost (Some "/opt/libero/bin/libero") 0 id id)
           "build_top.sh" _ Hdir Hfile).
Defined.

(** X17. With the tool chain on the path and no regular file named "impl", the
    script runner starts exactly one process, the platform's shell with the
    script as its last argument, on a tree from which an old "impl" directory
    has been removed, with the files and the directories below it, and in
    which every other file and directory is as it was; it returns when the shell exits with zero and raises
    [OSError] with the text "Subprocess failed" otherwise, the files and
    directories being those the tool left in both cases. *)
Theorem run_script_launches_once (sys_platform : string) (host : Host) (script : string)
    (w : World) :
  files w !! "impl" = None →
  is_Some (which_libero host) →
  let shell := if decide (sys_platform = "win32" ∨ sys_platform = "cygwin")
               then ["cmd"; "/c"] else ["bash"] in
  ∃ w1,
    run_script sys_platform host script w
    = (if decide (shell_returncode host = 0%Z) then Ok tt
       else Raise (OSError "Subprocess failed"),
       mkWorld (shell_leaves host (files w1)) (shell_leaves_dirs host (dirs w1))
         (launched w ++ [shell ++ [script]]))
    ∧ (∀ f, inside "impl" f = false →
         files w1 !! f = files w !! f ∧ (f ∈ dirs w1 ↔ f ∈ dirs w))
    ∧ (∀ f, inside "impl" f = true → "impl" ∈ dirs w →
         files w1 !! f = None ∧ f ∉ dirs w1)
    ∧ ("impl" ∉ dirs w → w1 = w).
Proof.
  intros Hfile [tool Hwhich] shell.
  assert (Hlaunch : ∀ w1, launched w1 = launched w →
    (match which_libero host with
     | None => raise (OSError ("Unable to find Libero SoC toolchain." +:+ nl))
     | Some _ =>
         rc ← subprocess_call host (shell ++ [script]);
         if decide (rc ≠ 0%Z) then raise (OSError "Subprocess failed") else mret tt
     end) w1
    = (if decide (shell_returncode host = 0%Z) then Ok tt
       else Raise (OSError "Subprocess failed"),
       mkWorld (shell_leaves host (files w1)) (shell_leaves_dirs host (dirs w1))
         (launched w ++ [shell ++ [script]]))).
  { intros w1 Hl. rewrite Hwhich. unfold mbind, M_bind, subprocess_call. rewrite Hl.
    destruct (decide (shell_returncode host = 0%Z)) as [Hrc|Hrc].
    - by rewrite decide_False by (intros Hn; by apply Hn).
    - by rewrite decide_True by done. }
  destruct (decide ("impl" ∈ dirs w)) as [Hdir|Hdir].
  - destruct (rmtree_directory "impl" w Hdir) as (w1 & Hrm & Hl & Hin & Hout).
    exists w1. split; [|split; [|split]].
    + unfold run_script. unfold mbind at 1. unfold M_bind at 1. cbv beta.
      unfold path_exists. rewrite bool_decide_eq_true_2 by done. cbn [orb].
      rewrite Hrm. by apply Hlaunch.
    + intros f Hf. by apply Hout.
    + intros f Hf _. by apply Hin.
    + done.
  - exists w. split; [|split; [|split]]; try done.
    unfold run_script. unfold mbind at 1. unfold M_bind at 1. cbv beta.
    unfold path_exists. rewrite bool_decide_eq_false_2 by done.
    rewrite bool_decide_eq_false_2 by (rewrite Hfile; by intros [? ?]). cbn [orb].
    by apply Hlaunch.
Qed.

Lemma run_script_launches_once_witness :
  ∃ w1,
    run_script "win32" (mkHost (Some "C:/libero/libero.exe") 1 id (union {["impl"]}))
      "build_top.bat"
      (mkWorld {["impl/old.log" := "stale"; "top.v" := "module"]} {["impl"; "impl/designer"]} [])
    = (if decide (1%Z = 0%Z) then Ok tt else Raise (OSError "Subprocess failed"),
       mkWorld (id (files w1)) ({["impl"]} ∪ dirs w1)
         ([] ++ [(if decide ("win32" = "win32" ∨ "win32" = "cygwin")
                  then ["cmd"; "/c"] else ["bash"]) ++ ["build_top.bat"]]))
    ∧ files w1 !! "impl/old.log" = None
    ∧ ("impl/designer" ∉ dirs w1)
    ∧ files w1 !! "top.v" = Some "module".
Proof.
  pose (w := mkWorld {["impl/old.log" := "stale"; "top.v" := "module"]}
               {["impl"; "impl/designer"]} []).
  assert (Hfile : files w !! "impl" = None) by (vm_compute; reflexivity).
  assert (Hwhich : is_Some (which_libero
                              (mkHost (Some "C:/libero/libero.exe") 1 id (union {["impl"]}))))
    by (by eexists).
  assert (Hdir : "impl" ∈ dirs w) by (apply elem_of_union; left; by apply elem_of_singleton).
  destruct (run_script_launches_once "win32"
              (mkHost (Some "C:/libero/libero.exe") 1 id (union {["impl"]}))
              "build_top.bat" w Hfile Hwhich) as (w1 & Hrun & Hout & Hin & _).
  exists w1. split; [exact Hrun|]. split; [|split].
  - exact (proj1 (Hin "impl/old.log" eq_refl Hdir)).
  - exact (proj2 (Hin "impl/designer" eq_refl Hdir)).
  - exact (eq_trans (proj1 (Hout "top.v" eq_refl)) eq_refl).
Defined.

(** ** Finding the programming tool *)

(** X18. The programming tool is found exactly when one of the two spellings of
    its name is on the path.  The spelling of the platform is preferred,
    "FPExpress" on Windows and "fpexpress" elsewhere; the other spelling is
    tried only when the preferred one is absent, and when both are absent the
    error message names the other spelling, not the preferred one. *)
Theorem find_fpexpress_order (system : string) (which : string → option string) :
  let preferred := if decide (system = "Windows") then "FPExpress" else "fpexpress" in
  let other := if decide (system = "Windows") then "fpexpress" else "FPExpress" in
  (∀ path, which preferred = Some path → find_fpexpress system which = Located path)
  ∧ (∀ path, which preferred = None → which other = Some path →
       find_fpexpress system which = Located path)
  ∧ (which preferred = None → which other = None →
       find_fpexpress system which
       = FileNotFoundError
           ("'" +:+ other +:+ "' not found in the system PATH. "
              +:+ "Please ensure Microchip Libero/FlashPro Express is installed and its 'bin' directory is in your PATH."))
  ∧ ((∃ path, find_fpexpress system which = Located path)
     ↔ is_Some (which "FPExpress") ∨ is_Some (which "fpexpress"))
  ∧ (∀ device self, FlashProExpressProgrammer_init system which device = inl self →
       programmer_device self = device
       ∧ (which "FPExpress" = Some (fpexpress_executable self)
          ∨ which "fpexpress" = Some (fpexpress_executable self))).
Proof.
  intros preferred other.
  assert (Hinit : ∀ device self,
            FlashProExpressProgrammer_init system which device = inl self →
            programmer_device self = device
            ∧ (which "FPExpress" = Some (fpexpress_executable self)
               ∨ which "fpexpress" = Some (fpexpress_executable self))).
  { intros device self. unfold FlashProExpressProgrammer_init, find_fpexpress.
    destruct (decide (system = "Windows"));
      (destruct (which "FPExpress") as [p1|] eqn:H1);
      (destruct (which "fpexpress") as [p2|] eqn:H2); intros [= <-]; simpl; auto. }
  split; [|split; [|split; [|split; [|exact Hinit]]]]; unfold find_fpexpress;
    fold preferred; fold other;
    [by intros path ->|by intros path -> ->|by intros -> ->|].
  assert (Hnames : is_Some (which "FPExpress") ∨ is_Some (which "fpexpress")
                   ↔ is_Some (which preferred) ∨ is_Some (which other)).
  { unfold preferred, other. case_decide; tauto. }
  rewrite Hnames. destruct (which preferred) as [p1|]; [|destruct (which other) as [p2|]].
  - split; [intros _; left; by eexists|intros _; by eexists].
  - split; [intros _; right; by eexists|intros _; by eexists].
  - split; [by intros [path ?]|]. by intros [[? ?]|[? ?]].
Qed.

Lemma find_fpexpress_order_witness :
  find_fpexpress "Linux" (λ name, if decide (name = "FPExpress") then Some "/opt/bin/FPExpress"
                                   else None)
  = Located "/opt/bin/FPExpress".
Proof.
  pose proof (find_fpexpress_order "Linux"
                (λ name, if decide (name = "FPExpress") then Some "/opt/bin/FPExpress"
                         else None)) as (_ & Hother & _).
  exact (Hother "/opt/bin/FPExpress" eq_refl eq_refl).
Defined.

(** ** The walk up to the implementation directory *)

Lemma find_impl_nearest (r : string) (l l' : list string) :
  "impl" ∉ l' → find_impl (Path.mk r (l ++ "impl" :: l')) = Path.mk r (l ++ ["impl"]).
Proof.
  unfold find_impl. cbn [Path.parts].
  induction l' as [|x l' IH] using rev_ind; intros Hl'.
  - apply iter_fixed, climb_stays.
  - apply not_elem_of_app in Hl' as [Hl' Hx]. apply not_elem_of_cons in Hx as [Hx _].
    replace (l ++ "impl" :: l' ++ [x]) with ((l ++ "impl" :: l') ++ [x])
      by (by rewrite <- app_assoc).
    rewrite length_app. simpl. rewrite Nat.add_1_r, Nat.iter_succ_r.
    rewrite climb_up by done. by apply IH.
Qed.

Lemma climb_root (r : string) : climb (Path.mk r []) = Path.mk r [].
Proof.
  unfold climb, Path.parent. cbn [Path.parts Path.root removelast].
  rewrite (bool_decide_eq_false_2 (Path.mk r [] ≠ Path.mk r [])) by (intros H; by apply H).
  by rewrite andb_false_r.
Qed.

(** X19. The walk stops at the component named "impl" that is nearest to the
    file, so with nested "impl" directories the innermost one is taken, and
    at the root when there is none; either way the loop has come to rest:
    its test fails on the result, within as many rounds as the path has
    components. *)
Theorem find_impl_stops (p : Path.t) :
  climb (find_impl p) = find_impl p
  ∧ (∀ l l', Path.parts p = l ++ "impl" :: l' → "impl" ∉ l' →
       find_impl p = Path.mk (Path.root p) (l ++ ["impl"]))
  ∧ ("impl" ∉ Path.parts p → find_impl p = Path.mk (Path.root p) []).
Proof.
  destruct p as [r ps]. cbn [Path.parts Path.root].
  split; [|split].
  - destruct (decide ("impl" ∈ ps)) as [Hin|Hin].
    + apply list_elem_of_split_r in Hin as (l & l' & -> & Hl').
      rewrite find_impl_nearest by done. apply climb_stays.
    + rewrite find_impl_none by done. apply climb_root.
  - intros l l' -> Hl'. by apply find_impl_nearest.
  - apply find_impl_none.
Qed.

Lemma find_impl_stops_witness :
  find_impl (Path.of_string "/w/impl/old/impl/designer/top/export/top.job")
  = Path.mk (Path.root (Path.of_string "/w/impl/old/impl/designer/top/export/top.job"))
      (["w"; "impl"; "old"] ++ ["impl"]).
Proof.
  pose proof (find_impl_stops (Path.of_string "/w/impl/old/impl/designer/top/export/top.job"))
    as (_ & Hnearest & _).
  assert (Hl' : "impl" ∉ ["designer"; "top"; "export"; "top.job"]).
  { rewrite !not_elem_of_cons. repeat split; try discriminate. apply not_elem_of_nil. }
  exact (Hnearest ["w"; "impl"; "old"] ["designer"; "top"; "export"; "top.job"] eq_refl Hl').
Defined.

(** ** Which device is programmed *)

Lemma find_impl_name (s : string) :
  "impl" ∈ Path.parts (Path.of_string s) → Path.name (find_impl (Path.of_string s)) = "impl".
Proof.
  unfold Path.of_string. cbn [Path.parts].
  intros (l & l' & -> & Hl')%list_elem_of_split_r.
  rewrite find_impl_nearest by done. unfold Path.name. cbn [Path.parts].
  by rewrite last_snoc.
Qed.

(** X20. A [device] entry among the keyword arguments wins over the device of
    the programmer, also when the entry is [None] or the empty string: then
    the call raises [ValueError] although the programmer has a device.  The
    programmer's device is used only when the entry is absent.  The error is
    raised before anything is written or started. *)
Theorem load_bitstream_device_choice (self : FlashProExpressProgrammer) (m : Machine)
    (job : string) (w : World) :
  "impl" ∈ Path.parts (Path.of_string job) →
  let no_device :=
    (Raise (ValueError
       "No device specified. Provide it with --device or set the 'device' attribute in the platform file."),
     w) in
  load_bitstream self m job (Some None) w = no_device
  ∧ load_bitstream self m job (Some (Some "")) w = no_device
  ∧ (programmer_device self = None ∨ programmer_device self = Some "" →
     load_bitstream self m job None w = no_device)
  ∧ (∀ d self', fpexpress_executable self' = fpexpress_executable self →
       load_bitstream self m job (Some (Some d)) w
       = load_bitstream self' m job (Some (Some d)) w)
  ∧ load_bitstream self m job None w
    = load_bitstream self m job (Some (programmer_device self)) w.
Proof.
  intros Himpl no_device. pose proof (find_impl_name job Himpl) as Hname.
  assert (Hstop : bool_decide (Path.name (find_impl (Path.of_string job)) ≠ "impl") = false).
  { rewrite Hname. by apply bool_decide_eq_false_2; intros H. }
  unfold load_bitstream. rewrite Hstop. cbn [default from_option]. unfold id.
  split; [done|]. split; [done|]. split; [by intros [-> | ->]|]. split; [|done].
  intros d self' Hexe. destruct d as [|c d]; [done|].
  unfold program_device. by rewrite Hexe.
Qed.

Lemma load_bitstream_device_choice_witness :
  load_bitstream (mkProgrammer (Some "mpf100t-fcg484-1") "fpexpress")
    (mkMachine Written (Exited 0 id)) "/home/user/build/impl/designer/top/export/top.job"
    (Some None) Demo.empty_world
  = (Raise (ValueError
       "No device specified. Provide it with --device or set the 'device' attribute in the platform file."),
     Demo.empty_world).
Proof.
  assert (Himpl : "impl" ∈ Path.parts
                    (Path.of_string "/home/user/build/impl/designer/top/export/top.job")).
  { by apply (list_elem_of_lookup_2 _ 3). }
  exact (proj1 (load_bitstream_device_choice
                  (mkProgrammer (Some "mpf100t-fcg484-1") "fpexpress")
                  (mkMachine Written (Exited 0 id))
                  "/home/user/build/impl/designer/top/export/top.job"
                  Demo.empty_world Himpl)).
Defined.

(** ** One programming run *)

(** X21. A programming run with a three-field device string, for which the
    project directory of the programmer can be made and the script can be
    written: the project directory exists afterwards
    with its ancestors; the tool is started once, with the script as its only
    argument, and finds the script on disk; the run returns when the tool
    exits with zero, raises [CalledProcessError] when it exits otherwise and
    the tool's own error when it cannot be started; in every case the script
    is gone afterwards, and so is a file that had its name before. *)
Theorem program_device_run (self : FlashProExpressProgrammer) (m : Machine)
    (build_dir project_name device_string die : string) (w : World) :
  mkdir_refused (files w)
    (Path.lineage (Path.of_string (posixpath_join build_dir ["impl"; "programmer"])))
  = None →
  unpack_die device_string = Ok die →
  script_write m = Written →
  let programmer_proj_path := posixpath_join build_dir ["impl"; "programmer"] in
  let job_file_path :=
    posixpath_join build_dir
      ["impl"; "designer"; project_name; "export"; project_name +:+ ".job"] in
  let tcl_file :=
    Path.to_string (Path.joinpath (Path.of_string build_dir) "program_device.tcl") in
  let script :=
    Str.join nl (program_tcl project_name programmer_proj_path job_file_path die) in
  let r := program_device self m build_dir project_name device_string w in
  dirs r.2 = list_to_set (Path.lineage (Path.of_string programmer_proj_path)) ∪ dirs w
  ∧ files r.2 !! tcl_file = None
  ∧ match tool m with
    | Exited rc leaves =>
        r.1 = (if decide (rc = 0%Z) then Ok tt else Raise (CalledProcessError rc))
        ∧ launched r.2 = launched w ++ [[fpexpress_executable self; "SCRIPT:" +:+ tcl_file]]
        ∧ files r.2 = delete tcl_file (leaves (<[tcl_file := script]> (files w)))
    | NotStarted err =>
        r.1 = Raise (OSError err)
        ∧ launched r.2 = launched w
        ∧ files r.2 = delete tcl_file (files w)
    end.
Proof.
  intros Hfree Hdie Hw programmer_proj_path job_file_path tcl_file script r.
  unfold r, program_device, mbind, M_bind. rewrite (makedirs_made _ w Hfree), Hdie.
  unfold write_script. rewrite Hw. unfold try_finally, run_fpexpress, remove_script.
  cbn [files dirs launched]. fold programmer_proj_path job_file_path tcl_file script.
  destruct (tool m) as [rc leaves|err]; [destruct (decide (rc = 0%Z))|];
    cbn [files dirs launched]; case_decide as Hin; cbn [fst snd files dirs launched];
    (split; [done|]);
    (split; [first [apply lookup_delete_eq | by apply eq_None_not_Some]|]);
    (split; [done|]); (split; [done|]);
    first [ done
          | symmetry; apply delete_id; by apply eq_None_not_Some
          | by rewrite delete_insert_eq
          | exfalso; apply Hin; rewrite lookup_insert_eq; by eexists ].
Qed.

Lemma program_device_run_witness :
  files (program_device Demo.programmer (mkMachine Written (NotStarted "No such file"))
           "/home/user/build" "top" "mpf100t-fcg484-1" Demo.empty_world).2
    !! Path.to_string (Path.joinpath (Path.of_string "/home/user/build") "program_device.tcl")
  = None.
Proof.
  assert (Hfree : mkdir_refused (files Demo.empty_world)
                    (Path.lineage
                       (Path.of_string
                          (posixpath_join "/home/user/build" ["impl"; "programmer"])))
                  = None) by (vm_compute; reflexivity).
  pose proof (program_device_run Demo.programmer
                (mkMachine Written (NotStarted "No such file"))
                "/home/user/build" "top" "mpf100t-fcg484-1" "mpf100t" Demo.empty_world
                Hfree eq_refl eq_refl) as (_ & Hgone & _).
  exact Hgone.
Defined.

(** X22. When the project directory can be made but the script cannot be
    opened for writing, the run raises
    [IOError] with the text "Failed to create Tcl script: " and the reason;
    the tool is not started and no file changes, but the programmer's
    project directory has been created. *)
Theorem program_device_script_not_opened (self : FlashProExpressProgrammer) (m : Machine)
    (build_dir project_name device_string die err : string) (w : World) :
  mkdir_refused (files w)
    (Path.lineage (Path.of_string (posixpath_join build_dir ["impl"; "programmer"])))
  = None →
  unpack_die device_string = Ok die →
  script_write m = OpenFailed err →
  program_device self m build_dir project_name device_string w
  = (Raise (IOError ("Failed to create Tcl script: " +:+ err)),
     mkWorld (files w)
       (list_to_set
          (Path.lineage (Path.of_string (posixpath_join build_dir ["impl"; "programmer"])))
        ∪ dirs w)
       (launched w)).
Proof.
  intros Hfree Hdie Hw. unfold program_device, mbind, M_bind.
  rewrite (makedirs_made _ w Hfree), Hdie.
  unfold write_script. by rewrite Hw.
Qed.

Lemma program_device_script_not_opened_witness :
  program_device Demo.programmer (mkMachine (OpenFailed "Permission denied") (Exited 0 id))
    "/home/user/build" "top" "mpf100t-fcg484-1" Demo.empty_world
  = (Raise (IOError ("Failed to create Tcl script: " +:+ "Permission denied")),
     mkWorld (files Demo.empty_world)
       (list_to_set
          (Path.lineage
             (Path.of_string (posixpath_join "/home/user/build" ["impl"; "programmer"])))
        ∪ dirs Demo.empty_world)
       (launched Demo.empty_world)).
Proof.
  assert (Hfree : mkdir_refused (files Demo.empty_world)
                    (Path.lineage
                       (Path.of_string
                          (posixpath_join "/home/user/build" ["impl"; "programmer"])))
                  = None) by (vm_compute; reflexivity).
  exact (program_device_script_not_opened Demo.programmer
           (mkMachine (OpenFailed "Permission denied") (Exited 0 id))
           "/home/user/build" "top" "mpf100t-fcg484-1" "mpf100t" "Permission denied"
           Demo.empty_world Hfree eq_refl eq_refl).
Defined.

(** ** From the job file back to the project *)

Lemma has_char_app (c : ascii) (s t : string) :
  has_char c (s +:+ t) = has_char c s || has_char c t.
Proof.
  induction s as [|a s IH]; [by rewrite app_empty_l|].
  rewrite app_cons. simpl. by rewrite IH, orb_assoc.
Qed.

Lemma startswith_no_sep (c : ascii) (s : string) :
  has_char c s = false → Str.startswith s (String c "") = false.
Proof.
  destruct s as [|a s]; [done|]. simpl. intros [Ha _]%orb_false_iff.
  apply bool_decide_eq_false in Ha. by rewrite decide_False by congruence.
Qed.

Lemma endswith_char_no_sep (c : ascii) (s : string) :
  has_char c s = false → Str.endswith_char s c = false.
Proof.
  induction s as [|a s IH]; [done|]. simpl. intros [Ha Hs]%orb_false_iff.
  destruct s as [|b s]; [done|]. by apply IH.
Qed.

Lemma endswith_char_app (c : ascii) (s t : string) :
  t ≠ "" → Str.endswith_char (s +:+ t) c = Str.endswith_char t c.
Proof.
  intros Ht. induction s as [|a s IH]; [by rewrite app_empty_l|].
  rewrite app_cons. cbn [Str.endswith_char]. rewrite IH.
  destruct (s +:+ t) eqn:Hst; [|done].
  destruct s; [by rewrite app_empty_l in Hst|by rewrite app_cons in Hst].
Qed.

Lemma parts_of_single (s : string) :
  has_char "/" s = false → s ≠ "" → s ≠ "." → Path.parts_of s = [s].
Proof.
  intros Hs Hne Hdot. unfold Path.parts_of. rewrite split_no_sep by done.
  by rewrite filter_cons_True.
Qed.

Lemma parts_of_no_sep (s x : string) : x ∈ Path.parts_of s → x ≠ "" ∧ has_char "/" x = false.
Proof.
  unfold Path.parts_of. intros [[Hne _] Hx]%list_elem_of_filter.
  split; [done|]. by apply (split_fields "/" s).
Qed.

Lemma root_of_app (pre rest : string) :
  Path.parts_of pre ≠ [] → Path.root_of (pre +:+ String "/" rest) = Path.root_of pre.
Proof.
  unfold Path.root_of.
  destruct pre as [|a [|b [|c pre]]]; rewrite ?app_cons, ?app_empty_l; simpl;
    repeat (destruct (decide _)); subst; rewrite ?startswith_empty; try done;
    intros Hparts; by destruct Hparts.
Qed.

Lemma join_snoc (sep x : string) (l : list string) :
  l ≠ [] → Str.join sep (l ++ [x]) = Str.join sep l +:+ sep +:+ x.
Proof.
  induction l as [|y [|z l] IH]; intros Hl; [done|done|].
  change ((y :: z :: l) ++ [x]) with (y :: z :: (l ++ [x])).
  rewrite !join_cons. change (z :: l ++ [x]) with ((z :: l) ++ [x]).
  rewrite IH by done. by rewrite !app_assoc_str.
Qed.

Lemma normal_path_end (s : string) :
  Path.to_string (Path.of_string s) = s → Path.parts_of s ≠ [] →
  s ≠ "" ∧ Str.endswith_char s "/" = false.
Proof.
  intros Hnormal Hparts. split; [by intros ->|].
  rewrite <- Hnormal. unfold Path.to_string, Path.of_string. cbn [Path.root Path.parts].
  pose proof (parts_of_no_sep s) as Hno.
  destruct (Path.parts_of s) as [|y l] using rev_ind; [done|]. clear IHl.
  destruct (Hno y) as [Hy Hsep]; [apply elem_of_app; right; apply list_elem_of_here|].
  assert (Hend : Str.endswith_char (Path.root_of s +:+ Str.join "/" (l ++ [y])) "/" = false).
  { destruct l as [|z l].
    - simpl. destruct (Path.root_of s); [by apply endswith_char_no_sep|].
      rewrite endswith_char_app by done. by apply endswith_char_no_sep.
    - rewrite join_snoc by done. rewrite <- !app_assoc_str.
      rewrite endswith_char_app by done. by apply endswith_char_no_sep. }
  destruct (Path.root_of s); [|done].
  by destruct (l ++ [y]) eqn:Hl; [destruct l|].
Qed.

Lemma rfind_dot_extension (s : string) :
  Path.rfind_dot (s +:+ ".job") = Some (String.length s).
Proof.
  induction s as [|a s IH]; [done|]. rewrite app_cons. simpl. by rewrite IH.
Qed.

Lemma prefix_of_length_app (s t : string) :
  Path.prefix_of_length (String.length s) (s +:+ t) = s.
Proof.
  induction s as [|a s IH]; [by destruct t|]. rewrite app_cons. simpl. by rewrite IH.
Qed.

Lemma job_name_parts (pre name : string) :
  has_char "/" name = false → name ≠ "" → name ≠ "." →
  Path.parts_of (pre +:+ "/impl/designer/" +:+ name +:+ "/export/" +:+ name +:+ ".job")
  = Path.parts_of pre ++ ["impl"; "designer"; name; "export"; name +:+ ".job"].
Proof.
  intros Hsep Hne Hdot.
  change (pre +:+ "/impl/designer/" +:+ name +:+ "/export/" +:+ name +:+ ".job")
    with (pre +:+ String "/" ("impl" +:+ String "/" ("designer" +:+ String "/"
            (name +:+ String "/" ("export" +:+ String "/" (name +:+ ".job")))))).
  rewrite !parts_of_app. rewrite (parts_of_single name) by done.
  rewrite (parts_of_single (name +:+ ".job")); [done| | |].
  - by rewrite has_char_app, Hsep.
  - by destruct name.
  - by destruct name as [|a [|b name]].
Qed.

(** X23. The job file the programmer hands to the tool is the file it was
    given: for a build directory written in normal form and a project name
    that is a single path component other than "impl", loading
    [<build_dir>/impl/designer/<name>/export/<name>.job] programs with that
    build directory and that project name, and the job file path put
    together from the two is the path that was given. *)
Theorem load_bitstream_finds_job (self : FlashProExpressProgrammer) (m : Machine)
    (build_dir name d : string) (kwargs_device : option (option string)) (w : World) :
  Path.to_string (Path.of_string build_dir) = build_dir →
  Path.parts_of build_dir ≠ [] →
  has_char "/" name = false → name ≠ "" → name ≠ "." → name ≠ "impl" →
  default (programmer_device self) kwargs_device = Some d → d ≠ "" →
  let job := build_dir +:+ "/impl/designer/" +:+ name +:+ "/export/" +:+ name +:+ ".job" in
  load_bitstream self m job kwargs_device w = program_device self m build_dir name d w
  ∧ posixpath_join build_dir ["impl"; "designer"; name; "export"; name +:+ ".job"] = job.
Proof.
  intros Hnormal Hparts Hsep Hne Hdot Himpl Hdev Hd job.
  destruct (normal_path_end build_dir Hnormal Hparts) as [Hb Hend].
  assert (Hjob : name +:+ ".job" ≠ "impl").
  { intros Heq. apply (f_equal String.length) in Heq.
    rewrite string_app_length in Heq. simpl in Heq. destruct name; [done|simpl in Heq; lia]. }
  assert (Hjobparts : Path.parts_of job
            = Path.parts_of build_dir ++ ["impl"; "designer"; name; "export"; name +:+ ".job"])
    by (by apply job_name_parts).
  assert (Hroot : Path.root_of job = Path.root_of build_dir).
  { unfold job.
    change (build_dir +:+ "/impl/designer/" +:+ name +:+ "/export/" +:+ name +:+ ".job")
      with (build_dir +:+ String "/" ("impl/designer/" +:+ name +:+ "/export/" +:+ name
                                        +:+ ".job")).
    by apply root_of_app. }
  assert (Hfind : find_impl (Path.of_string job)
                  = Path.mk (Path.root_of build_dir) (Path.parts_of build_dir ++ ["impl"])).
  { unfold Path.of_string. rewrite Hjobparts, Hroot. apply find_impl_nearest.
    rewrite !not_elem_of_cons. repeat split; try done; try congruence.
    apply not_elem_of_nil. }
  assert (Hstem : Path.stem (Path.of_string job) = name).
  { unfold Path.stem, Path.name, Path.of_string. cbn [Path.parts]. rewrite Hjobparts.
    change ["impl"; "designer"; name; "export"; name +:+ ".job"]
      with (["impl"; "designer"; name; "export"] ++ [name +:+ ".job"]).
    rewrite app_assoc, last_snoc. cbn [default from_option]. unfold id.
    rewrite rfind_dot_extension, string_app_length, prefix_of_length_app.
    rewrite decide_True; [done|]. destruct name; [done|simpl; lia]. }
  split.
  - unfold load_bitstream. rewrite Hfind, Hstem, Hdev.
    unfold Path.name, Path.parent. cbn [Path.parts Path.root].
    rewrite last_snoc, removelast_last. cbn [default from_option]. unfold id.
    rewrite bool_decide_eq_false_2 by (intros H; by apply H).
    fold (Path.of_string build_dir). rewrite Hnormal. by destruct d.
  - assert (Hstep : ∀ path b, path ≠ "" → Str.endswith_char path "/" = false →
              has_char "/" b = false → b ≠ "" →
              (if Str.startswith b "/" then b
               else if bool_decide (path = "") || Str.endswith_char path "/" then path +:+ b
               else path +:+ "/" +:+ b) = path +:+ "/" +:+ b
              ∧ path +:+ "/" +:+ b ≠ ""
              ∧ Str.endswith_char (path +:+ "/" +:+ b) "/" = false).
    { intros path b Hp He Hbsep Hbne. rewrite (startswith_no_sep "/" b Hbsep), He.
      rewrite bool_decide_eq_false_2 by done. split; [done|]. split.
      - destruct path; [done|by rewrite app_cons].
      - rewrite <- app_assoc_str. rewrite endswith_char_app by done.
        by apply endswith_char_no_sep. }
    assert (Hjobsep : has_char "/" (name +:+ ".job") = false)
      by (by rewrite has_char_app, Hsep).
    assert (Hjobne : name +:+ ".job" ≠ "") by (by destruct name).
    unfold posixpath_join. cbn [foldl].
    destruct (Hstep build_dir "impl" Hb Hend eq_refl ltac:(done)) as (-> & Hp1 & He1).
    destruct (Hstep _ "designer" Hp1 He1 eq_refl ltac:(done)) as (-> & Hp2 & He2).
    destruct (Hstep _ name Hp2 He2 Hsep Hne) as (-> & Hp3 & He3).
    destruct (Hstep _ "export" Hp3 He3 eq_refl ltac:(done)) as (-> & Hp4 & He4).
    destruct (Hstep _ (name +:+ ".job") Hp4 He4 Hjobsep Hjobne) as (-> & _ & _).
    unfold job. by rewrite !app_assoc_str.
Qed.

Lemma load_bitstream_finds_job_witness :
  load_bitstream Demo.programmer (mkMachine Written (Exited 0 id))
    ("/work/impl/run1" +:+ "/impl/designer/" +:+ "soc.v2" +:+ "/export/" +:+ "soc.v2" +:+ ".job")
    (Some (Some "m2s010-tq144-1")) Demo.empty_world
  = program_device Demo.programmer (mkMachine Written (Exited 0 id))
      "/work/impl/run1" "soc.v2" "m2s010-tq144-1" Demo.empty_world.
Proof.
  assert (Hparts : Path.parts_of "/work/impl/run1" ≠ []) by (vm_compute; discriminate).
  assert (Hne : "soc.v2" ≠ "") by discriminate.
  assert (Hdot : "soc.v2" ≠ ".") by discriminate.
  assert (Himpl : "soc.v2" ≠ "impl") by discriminate.
  assert (Hd : "m2s010-tq144-1" ≠ "") by discriminate.
  exact (proj1 (load_bitstream_finds_job Demo.programmer (mkMachine Written (Exited 0 id))
                  "/work/impl/run1" "soc.v2" "m2s010-tq144-1"
                  (Some (Some "m2s010-tq144-1")) Demo.empty_world
                  eq_refl Hparts eq_refl Hne Hdot Himpl eq_refl Hd)).
Defined.

(** ** The job file and the implementation directory *)













(** ** A file in the way of the programmer's directory *)

Lemma mkdir_refused_file (fs : gmap string string) (lineage : list string) (d : string) :
  d ∈ lineage → is_Some (fs !! d) →
  ∃ msg, mkdir_refused fs lineage = Some (NotADirectoryError msg)
         ∨ mkdir_refused fs lineage = Some (FileExistsError msg).
Proof.
  induction lineage as [|x below IH]; intros Hd Hfile; [by apply elem_of_nil in Hd|].
  cbn [mkdir_refused]. case_decide as Hx.
  - destruct below as [|child below]; eexists; [by right|by left].
  - apply elem_of_cons in Hd as [->|Hd]; [done|]. by apply IH.
Qed.

(** X24. When a regular file lies where the programmer's project directory
    or one of its ancestors should be, a programming run raises
    [NotADirectoryError] or [FileExistsError] from making the directory,
    which comes before the device string is looked at: whatever the device
    string, nothing is made, written or started. *)
Theorem program_device_directory_refused (self : FlashProExpressProgrammer) (m : Machine)
    (build_dir project_name device_string d : string) (w : World) :
  d ∈ Path.lineage (Path.of_string (posixpath_join build_dir ["impl"; "programmer"])) →
  is_Some (files w !! d) →
  ∃ msg,
    program_device self m build_dir project_name device_string w
    = (Raise (NotADirectoryError msg), w)
    ∨ program_device self m build_dir project_name device_string w
      = (Raise (FileExistsError msg), w).
Proof.
  intros Hd Hfile.
  destruct (mkdir_refused_file (files w) _ d Hd Hfile) as [msg [Hrefused|Hrefused]];
    exists msg; [left|right]; unfold program_device, mbind, M_bind;
    by rewrite (makedirs_refused _ w _ Hrefused).
Qed.

Lemma program_device_directory_refused_witness :
  ∃ msg,
    program_device Demo.programmer (mkMachine Written (Exited 0 id)) "/home/user/build" "top"
      "not a device" (mkWorld {["/home/user/build/impl" := "notes"]} ∅ [])
    = (Raise (NotADirectoryError msg), mkWorld {["/home/user/build/impl" := "notes"]} ∅ [])
    ∨ program_device Demo.programmer (mkMachine Written (Exited 0 id)) "/home/user/build" "top"
        "not a device" (mkWorld {["/home/user/build/impl" := "notes"]} ∅ [])
      = (Raise (FileExistsError msg), mkWorld {["/home/user/build/impl" := "notes"]} ∅ []).
Proof.
  assert (Hd : "/home/user/build/impl"
               ∈ Path.lineage
                   (Path.of_string
                      (posixpath_join "/home/user/build" ["impl"; "programmer"]))).
  { by apply (list_elem_of_lookup_2 _ 3). }
  assert (Hfile : is_Some (files (mkWorld {["/home/user/build/impl" := "notes"]} ∅ [])
                             !! "/home/user/build/impl")).
  { exists "notes". vm_compute. reflexivity. }
  exact (program_device_directory_refused Demo.programmer (mkMachine Written (Exited 0 id))
           "/home/user/build" "top" "not a device" "/home/user/build/impl"
           (mkWorld {["/home/user/build/impl" := "notes"]} ∅ []) Hd Hfile).
Defined.
